(** * The wallet daemon's dispatch and event engine (daemons/base.py)

    A shallow embedding of [BaseDaemon]: the three per-wallet dictionaries
    ([wallets], [wallets_config], [wallets_updates]), the built-in RPC
    methods, the wallet loader, the network-event callback and the HTTP
    request handler, followed by the properties of the daemon's
    specification that were checked against them.

    Python values are modelled as follows.
    - JSON values coming from a request are [json]; Python's [None] is
      [JNull].
    - A value used as a dict key or set element is a [pykey]: the hashable
      JSON scalars, with [True]/[False] identified with [1]/[0] as Python's
      [==] and [hash] do.  Arrays and objects are unhashable.
    - A call either returns, raises, or never returns: [outcome].
    - Stateful code is a function [daemon -> outcome A * daemon]. *)

From stdpp Require Import gmap strings list fin_maps.
From Stdlib Require Import ZArith Ascii.

Set Warnings "-register-all,-clear-no-such-hyp".

(** ** Python values *)

Inductive json :=
  | JNull
  | JBool (b : bool)
  | JNum (n : Z)
  | JStr (s : string)
  | JArr (l : list json)
  | JObj (kv : gmap string json).

Inductive pykey :=
  | KNone
  | KNum (n : Z)
  | KStr (s : string).

Global Instance pykey_eq_dec : EqDecision pykey.
Proof. solve_decision. Defined.

Definition pykey_enc (k : pykey) : unit + (Z + string) :=
  match k with
  | KNone => inl ()
  | KNum n => inr (inl n)
  | KStr s => inr (inr s)
  end.

Definition pykey_dec (x : unit + (Z + string)) : pykey :=
  match x with
  | inl _ => KNone
  | inr (inl n) => KNum n
  | inr (inr s) => KStr s
  end.

Global Instance pykey_countable : Countable pykey.
Proof. apply (inj_countable' pykey_enc pykey_dec). by intros []. Defined.

Inductive exn :=
  | KeyError (k : pykey)
  | TypeError (msg : string)
  | ValueError (msg : string)
  | AttributeError (msg : string)
  | UnboundLocalError (name : string)
  | BinasciiError (msg : string)
  | JSONDecodeError
  | LibraryError (msg : string).

Inductive outcome (A : Type) :=
  | Returns (a : A)
  | Raises (e : exn)
  | Hangs.
Arguments Returns {A} a.
Arguments Raises {A} e.
Arguments Hangs {A}.

Definition obind {A B} (m : outcome A) (k : A → outcome B) : outcome B :=
  match m with
  | Returns a => k a
  | Raises e => Raises e
  | Hangs => Hangs
  end.

Notation "'let*' x := m 'in' k" := (obind m (λ x, k))
  (at level 10, x pattern, m at level 100, k at level 200).

(** [hash(j)]: the key under which [j] is stored in a dict or set. *)
Definition py_hash (j : json) : outcome pykey :=
  match j with
  | JNull => Returns KNone
  | JBool b => Returns (KNum (if b then 1 else 0))
  | JNum n => Returns (KNum n)
  | JStr s => Returns (KStr s)
  | JArr _ => Raises (TypeError "unhashable type: 'list'")
  | JObj _ => Raises (TypeError "unhashable type: 'dict'")
  end.

Definition key_json (k : pykey) : json :=
  match k with
  | KNone => JNull
  | KNum n => JNum n
  | KStr s => JStr s
  end.

(** Truth value of [j], as tested by [if not j]. *)
Definition truthy (j : json) : bool :=
  match j with
  | JNull => false
  | JBool b => b
  | JNum n => negb (n =? 0)%Z
  | JStr s => negb (String.eqb s "")
  | JArr l => negb (Nat.eqb (length l) 0)
  | JObj kv => negb (Nat.eqb (size kv) 0)
  end.

(** [d[k]] for a dict [d]. *)
Definition dict_getitem {A} (d : gmap pykey A) (k : json) : outcome (pykey * A) :=
  let* h := py_hash k in
  match d !! h with
  | Some v => Returns (h, v)
  | None => Raises (KeyError h)
  end.

Fixpoint chars (s : string) : list string :=
  match s with
  | EmptyString => []
  | String c rest => String c EmptyString :: chars rest
  end.

(** The items produced by iterating over [j]. *)
Definition py_iter (j : json) : outcome (list json) :=
  match j with
  | JArr l => Returns l
  | JStr s => Returns (JStr <$> chars s)
  | JObj kv => Returns (JStr <$> (map_to_list kv).*1)
  | _ => Raises (TypeError "object is not iterable")
  end.

Definition is_substring (t s : string) : bool :=
  match String.index 0 t s with
  | Some _ => true
  | None => false
  end.

(** What [unsubscribe] tests membership in: a request value, or the
    [EVENT_MAPPING.keys()] view. *)
Inductive container :=
  | CJson (j : json)
  | CKeys (ks : gset string).

(** [i in c]. *)
Definition py_contains (c : container) (i : pykey) : outcome bool :=
  match c with
  | CKeys ks =>
      Returns (match i with KStr s => bool_decide (s ∈ ks) | _ => false end)
  | CJson (JArr l) =>
      Returns (existsb (λ x, match py_hash x with
                              | Returns h => bool_decide (h = i)
                              | _ => false
                              end) l)
  | CJson (JStr s) =>
      match i with
      | KStr t => Returns (is_substring t s)
      | _ => Raises (TypeError "'in <string>' requires string as left operand")
      end
  | CJson (JObj kv) =>
      Returns (match i with KStr s => bool_decide (is_Some (kv !! s)) | _ => false end)
  | CJson _ => Raises (TypeError "argument is not iterable")
  end.

(** ** Daemon state *)

(** One entry of [self.wallets]: the wallet, command runner and config
    objects, each named by the identity of the object. *)
Record wallet_data := WalletData {
  wd_wallet : nat;
  wd_cmd : nat;
  wd_config : nat
}.

(** One entry of [self.wallets_config]: [{"events": set()}]. *)
Record wallet_config := WalletConfig {
  events : gset pykey
}.

Record daemon := Daemon {
  wallets : gmap pykey wallet_data;
  wallets_config : gmap pykey wallet_config;
  wallets_updates : gmap pykey (list (gmap string json));
  (** wallet files present in the wallet directory, by file name *)
  disk : gset string;
  (** identity of the next object to be created *)
  fresh : nat
}.

Definition M (A : Type) : Type := daemon → outcome A * daemon.

Definition set_wallets_config (c : gmap pykey wallet_config) (st : daemon) : daemon :=
  Daemon (wallets st) c (wallets_updates st) (disk st) (fresh st).

Definition set_wallets_updates (u : gmap pykey (list (gmap string json))) (st : daemon) : daemon :=
  Daemon (wallets st) (wallets_config st) u (disk st) (fresh st).

(** ** Built-in methods *)

(** [get_updates], lines 242-245. *)
Definition get_updates (wallet : json) : M (list (gmap string json)) := λ st,
  match dict_getitem (wallets_updates st) wallet with
  | Returns (k, updates) =>
      (Returns updates, set_wallets_updates (<[k := []]> (wallets_updates st)) st)
  | Raises e => (Raises e, st)
  | Hangs => (Hangs, st)
  end.

(** [set.update(items)]: items are added one at a time, so an unhashable
    item leaves the earlier ones in the set. *)
Fixpoint set_update (s : gset pykey) (items : list json) : outcome unit * gset pykey :=
  match items with
  | [] => (Returns (), s)
  | x :: rest =>
      match py_hash x with
      | Returns k => set_update (s ∪ {[k]}) rest
      | Raises e => (Raises e, s)
      | Hangs => (Hangs, s)
      end
  end.

(** [subscribe], lines 247-248. *)
Definition subscribe (events_arg : json) (wallet : json) : M unit := λ st,
  match dict_getitem (wallets_config st) wallet with
  | Returns (k, cfg) =>
      match py_iter events_arg with
      | Returns items =>
          let '(r, s) := set_update (events cfg) items in
          (r, set_wallets_config (<[k := WalletConfig s]> (wallets_config st)) st)
      | Raises e => (Raises e, st)
      | Hangs => (Hangs, st)
      end
  | Raises e => (Raises e, st)
  | Hangs => (Hangs, st)
  end.

(** The generator [i for i in s if i not in c], over the elements [l] of [s]. *)
Fixpoint filter_not_in (c : container) (l : list pykey) : outcome (list pykey) :=
  match l with
  | [] => Returns []
  | i :: rest =>
      let* b := py_contains c i in
      let* kept := filter_not_in c rest in
      Returns (if b then kept else i :: kept)
  end.

(** [unsubscribe], lines 250-255.  [mapping] is the class attribute
    [EVENT_MAPPING], from raw network event kinds to public event tags. *)
Definition unsubscribe (mapping : gmap string string) (events_arg : json) (wallet : json)
    : M unit := λ st,
  let c := match events_arg with
           | JNull => CKeys (dom mapping)
           | _ => CJson events_arg
           end in
  match dict_getitem (wallets_config st) wallet with
  | Returns (k, cfg) =>
      match filter_not_in c (elements (events cfg)) with
      | Returns kept =>
          (Returns (),
           set_wallets_config (<[k := WalletConfig (list_to_set kept)]> (wallets_config st)) st)
      | Raises e => (Raises e, st)
      | Hangs => (Hangs, st)
      end
  | Raises e => (Raises e, st)
  | Hangs => (Hangs, st)
  end.

(** ** The parts supplied by a concrete daemon and by the wallet library

    [BaseDaemon] is abstract: the login data comes from the configuration,
    [EVENT_MAPPING], the [process_events] hook and the [@rpc] handlers from
    the subclass, and the wallet commands, the base64 decoder and the
    traceback formatter from libraries.  They are the fields of
    [daemon_class]. *)

Record daemon_class := DaemonClass {
  LOGIN : string;
  PASSWORD : string;
  EVENT_MAPPING : gmap string string;
  (** the positional arguments the network passes to a callback *)
  callback_args : Type;
  (** the subclass hook: payload (or [None]) and origin wallet (or [None]) *)
  process_events : pykey → callback_args → outcome (option (gmap string json) * option nat);
  (** [@rpc] handlers, called with positional and keyword arguments *)
  supported_methods : gmap string (list json → gmap string json → M json);
  (** names [n] for which [getattr(cmd, n)] succeeds *)
  command_attrs : gset string;
  (** [known_commands[n].requires_wallet] *)
  known_commands : gmap string bool;
  run_command : string → list json → gmap string json → outcome json;
  (** whether [restore] returns and the wallet file opens, and how many
      sleeps pass before [is_up_to_date()] holds ([None]: never) *)
  restore_ok : string → bool;
  wallet_ok : string → bool;
  sync_polls : string → option nat;
  (** the directory of line 112, and the [path] attribute of the
      [WalletStorage] opened on a path (the library standardizes it) *)
  wallet_dir : string;
  storage_path : string → string;
  b64decode : string → outcome string;
  format_exc_last_line : exn → string
}.

(** ** Loading a wallet *)

(** The triple [load_wallet] returns. *)
Record loaded := Loaded {
  ld_wallet : option nat;
  ld_cmd : nat;
  ld_config : nat
}.

Definition set_fresh (n : nat) (st : daemon) : daemon :=
  Daemon (wallets st) (wallets_config st) (wallets_updates st) (disk st) n.

Definition add_file (name : string) (st : daemon) : daemon :=
  Daemon (wallets st) (wallets_config st) (wallets_updates st) ({[name]} ∪ disk st) (fresh st).

(** Lines 122-124: the three dictionary stores. *)
Definition register (k : pykey) (wallet cmd config : nat) (st : daemon) : daemon :=
  Daemon (<[k := WalletData wallet cmd config]> (wallets st))
         (<[k := WalletConfig ∅]> (wallets_config st))
         (<[k := []]> (wallets_updates st))
         (disk st) (fresh st).

(** Lines 111-119 for a string [xpub]: restore the wallet file when it is
    missing, then open the wallet.  Returns the new wallet object. *)
Definition open_wallet (cls : daemon_class) (xpub : string) : M nat := λ st,
  let restored :=
    if bool_decide (xpub ∈ disk st) then Returns st
    else if restore_ok cls xpub then Returns (add_file xpub st)
    else Raises (LibraryError "restore failed") in
  match restored with
  | Returns st1 =>
      if wallet_ok cls xpub
      then (Returns (fresh st1), set_fresh (S (fresh st1)) st1)
      else (Raises (LibraryError "wallet could not be opened"), st1)
  | Raises e => (Raises e, st)
  | Hangs => (Hangs, st)
  end.

(** [load_wallet], lines 98-126, run without interruption.  The loop of
    lines 120-121 ends iff the library ever reports the wallet as
    synchronized. *)
Definition load_wallet (cls : daemon_class) (xpub : json) : M loaded := λ st,
  match py_hash xpub with
  | Returns k =>
      match wallets st !! k with
      | Some wallet_data =>
          (Returns (Loaded (Some (wd_wallet wallet_data)) (wd_cmd wallet_data)
                           (wd_config wallet_data)), st)
      | None =>
          let config := fresh st in
          let command_runner := S (fresh st) in
          let st1 := set_fresh (S (S (fresh st))) st in
          if negb (truthy xpub) then (Returns (Loaded None command_runner config), st1)
          else
            match xpub with
            | JStr s =>
                match open_wallet cls s st1 with
                | (Returns wallet, st2) =>
                    match sync_polls cls s with
                    | Some _ =>
                        (Returns (Loaded (Some wallet) command_runner config),
                         register (KStr s) wallet command_runner config st2)
                    | None => (Hangs, st2)
                    end
                | (Raises e, st2) => (Raises e, st2)
                | (Hangs, st2) => (Hangs, st2)
                end
            | _ => (Raises (TypeError "expected str, bytes or os.PathLike object"), st1)
            end
      end
  | Raises e => (Raises e, st)
  | Hangs => (Hangs, st)
  end.

(** ** The network callback *)

(** Lines 238-240 for one session [i]. *)
Definition deliver (data : gmap string json) (mapped_event : pykey) (wallet : option nat)
    (ws : gmap pykey wallet_data) (i : pykey) (cfg : wallet_config)
    (u : gmap pykey (list (gmap string json)))
    : outcome unit * gmap pykey (list (gmap string json)) :=
  if bool_decide (mapped_event ∈ events cfg) then
    let pass :=
      match wallet with
      | None => Returns true
      | Some h =>
          match ws !! i with
          | Some wd => Returns (bool_decide (h = wd_wallet wd))
          | None => Raises (KeyError i)
          end
      end in
    match pass with
    | Returns true =>
        match u !! i with
        | Some q => (Returns (), <[i := q ++ [data]]> u)
        | None => (Raises (KeyError i), u)
        end
    | Returns false => (Returns (), u)
    | Raises e => (Raises e, u)
    | Hangs => (Hangs, u)
    end
  else (Returns (), u).

(** The loop of line 237 over the items [l] of [wallets_config]. *)
Fixpoint deliver_all (data : gmap string json) (mapped_event : pykey) (wallet : option nat)
    (ws : gmap pykey wallet_data) (l : list (pykey * wallet_config))
    (u : gmap pykey (list (gmap string json)))
    : outcome unit * gmap pykey (list (gmap string json)) :=
  match l with
  | [] => (Returns (), u)
  | (i, cfg) :: rest =>
      match deliver data mapped_event wallet ws i cfg u with
      | (Returns _, u1) => deliver_all data mapped_event wallet ws rest u1
      | (Raises e, u1) => (Raises e, u1)
      | (Hangs, u1) => (Hangs, u1)
      end
  end.

Definition mapped_tag (cls : daemon_class) (event : string) : pykey :=
  match EVENT_MAPPING cls !! event with
  | Some t => KStr t
  | None => KNone
  end.

(** [_process_events], lines 227-240.  The record appended is
    [{"event": mapped_event}] updated with the hook's payload. *)
Definition _process_events (cls : daemon_class) (event : string) (args : callback_args cls)
    : M unit := λ st,
  let mapped_event := mapped_tag cls event in
  match process_events cls mapped_event args with
  | Returns (Some data_got, wallet) =>
      let data := data_got ∪ {[ "event" := key_json mapped_event ]} in
      let '(r, u) := deliver_all data mapped_event wallet (wallets st)
                       (map_to_list (wallets_config st)) (wallets_updates st) in
      (r, set_wallets_updates u st)
  | Returns (None, _) => (Returns (), st)
  | Raises _ => (Returns (), st)
  | Hangs => (Hangs, st)
  end.

(** ** Authentication *)

(** [s.replace(pat, "")]: every occurrence of [pat], left to right.
    [skip] counts the characters of a match still to be dropped. *)
Fixpoint remove_all (pat : string) (skip : nat) (s : string) : string :=
  match s with
  | EmptyString => EmptyString
  | String c rest =>
      match skip with
      | S n => remove_all pat n rest
      | O =>
          if String.prefix pat s
          then remove_all pat (Nat.pred (String.length pat)) rest
          else String c (remove_all pat O rest)
      end
  end.

(** [s.split(":")]. *)
Fixpoint split_colon (s : string) : list string :=
  match s with
  | EmptyString => [EmptyString]
  | String c rest =>
      match split_colon rest with
      | [] => [String c EmptyString]
      | piece :: pieces =>
          if Ascii.eqb c ":" then EmptyString :: piece :: pieces
          else String c piece :: pieces
      end
  end.

(** [decode_auth], lines 128-134. *)
Definition decode_auth (cls : daemon_class) (authstr : option string)
    : outcome (option string * option string) :=
  match authstr with
  | None => Returns (None, None)
  | Some EmptyString => Returns (None, None)
  | Some authstr =>
      let authstr := remove_all "Basic " 0 authstr in
      let* decoded_str := b64decode cls authstr in
      match split_colon decoded_str with
      | [user; password] => Returns (Some user, Some password)
      | [] | [_] => Raises (ValueError "not enough values to unpack (expected 2, got 1)")
      | _ => Raises (ValueError "too many values to unpack (expected 2)")
      end
  end.

(** ** Requests and responses *)

(** What the handler reads from an aiohttp request: the [Authorization]
    header, the content type, and what [await request.json()] yields
    ([None] when the body is not JSON, in which case the call raises). *)
Record request := Request {
  authorization : option string;
  content_type : string;
  body : option json
}.

(** The body of a [web.json_response], sent with status 200. *)
Inductive response :=
  | RpcError (code : Z) (message : string) (id : json)
  | RpcResult (result : json) (id : json).

Definition base_methods : gset string :=
  {["get_updates"; "subscribe"; "unsubscribe"]}.

(** Binding of the arguments of a call to the parameter names of a
    [def]: too many positionals, unknown keywords and doubly given
    parameters are [TypeError]s. *)
Definition bind_args (names : list string) (pos : list json) (kw : gmap string json)
    : outcome (gmap string json) :=
  let bound : gmap string json := list_to_map (zip names pos) in
  if bool_decide (length pos ≤ length names)
     && bool_decide (dom kw ⊆@{gset string} list_to_set names)
     && bool_decide (dom kw ##@{gset string} dom bound)
  then Returns (bound ∪ kw)
  else Raises (TypeError "arguments do not match the signature").

Definition record_json (r : gmap string json) : json := JObj r.

(** A built-in method called with positional arguments [pos] and keyword
    arguments [kw]. *)
Definition call_base_method (cls : daemon_class) (name : string)
    (pos : list json) (kw : gmap string json) : M json := λ st,
  if String.eqb name "get_updates" then
    match bind_args ["wallet"] pos kw with
    | Returns a =>
        match a !! "wallet" with
        | Some wallet =>
            match get_updates wallet st with
            | (Returns updates, st1) => (Returns (JArr (record_json <$> updates)), st1)
            | (Raises e, st1) => (Raises e, st1)
            | (Hangs, st1) => (Hangs, st1)
            end
        | None => (Raises (TypeError "missing a required argument"), st)
        end
    | Raises e => (Raises e, st)
    | Hangs => (Hangs, st)
    end
  else if String.eqb name "subscribe" then
    match bind_args ["events"; "wallet"] pos kw with
    | Returns a =>
        match a !! "events" with
        | Some events_arg =>
            match subscribe events_arg (default JNull (a !! "wallet")) st with
            | (Returns _, st1) => (Returns JNull, st1)
            | (Raises e, st1) => (Raises e, st1)
            | (Hangs, st1) => (Hangs, st1)
            end
        | None => (Raises (TypeError "missing a required argument"), st)
        end
    | Raises e => (Raises e, st)
    | Hangs => (Hangs, st)
    end
  else
    match bind_args ["events"; "wallet"] pos kw with
    | Returns a =>
        match unsubscribe (EVENT_MAPPING cls) (default JNull (a !! "events"))
                (default JNull (a !! "wallet")) st with
        | (Returns _, st1) => (Returns JNull, st1)
        | (Raises e, st1) => (Raises e, st1)
        | (Hangs, st1) => (Hangs, st1)
        end
    | Raises e => (Raises e, st)
    | Hangs => (Hangs, st)
    end.

(** The method a request resolved to (lines 180-197). *)
Inductive exec_method :=
  | BaseMethod (name : string)
  | CustomMethod (f : list json → gmap string json → M json)
  | LibraryCommand (name : string).

Fixpoint ends_with_slash (s : string) : bool :=
  match s with
  | EmptyString => false
  | String c EmptyString => Ascii.eqb c "/"
  | String _ rest => ends_with_slash rest
  end.

(** [os.path.join(a, b)] (line 113): an absolute [b] replaces [a], and a
    separator is put between the two unless [a] is empty or ends with
    one. *)
Definition path_join (a b : string) : string :=
  if String.prefix "/" b then b
  else if String.eqb a "" || ends_with_slash a then a +:+ b
  else a +:+ "/" +:+ b.

(** [wallet.storage.path if wallet else None] (line 204).  A wallet object
    was opened at line 117 on [os.path.join(wallet_dir, xpub)], and is
    stored and found again under that [xpub], a string: line 113 raises
    for any other value. *)
Definition wallet_storage_path (cls : daemon_class) (wallet : option nat) (xpub : json)
    : json :=
  match wallet, xpub with
  | Some _, JStr s => JStr (storage_path cls (path_join (wallet_dir cls) s))
  | _, _ => JNull
  end.

(** Lines 198-211: bind the wallet, splat [params], call.  [wallet] is the
    first component of the loader's result when it returned. *)
Definition invoke (cls : daemon_class) (m : exec_method) (xpub : json)
    (wallet : option nat) (params : json) : M json := λ st,
  let bound : outcome (gmap string json) :=
    match m with
    | BaseMethod _ | CustomMethod _ => Returns {[ "wallet" := xpub ]}
    | LibraryCommand name =>
        match known_commands cls !! name with
        | Some true =>
            Returns {[ "wallet_path" := wallet_storage_path cls wallet xpub ]}
        | Some false => Returns ∅
        | None => Raises (KeyError (KStr name))
        end
    end in
  match bound with
  | Returns kw0 =>
      let call pos kw :=
        match m with
        | BaseMethod name => call_base_method cls name pos kw st
        | CustomMethod f => f pos kw st
        | LibraryCommand name => (run_command cls name pos kw, st)
        end in
      match params with
      | JArr l => call l kw0
      | JObj kv => call [] (kv ∪ kw0)
      | _ => (Raises (UnboundLocalError "result"), st)
      end
  | Raises e => (Raises e, st)
  | Hangs => (Hangs, st)
  end.

(** Lines 181-197.  [method in d] hashes [method]; [getattr] wants a
    string. *)
Definition resolve_method (cls : daemon_class) (method : json)
    : outcome (option exec_method) :=
  let* h := py_hash method in
  match h with
  | KStr name =>
      if bool_decide (name ∈ base_methods) then Returns (Some (BaseMethod name))
      else
        match supported_methods cls !! name with
        | Some f => Returns (Some (CustomMethod f))
        | None =>
            if bool_decide (name ∈ command_attrs cls)
            then Returns (Some (LibraryCommand name))
            else Returns None
        end
  | _ => Raises (TypeError "attribute name must be string")
  end.

(** The test of line 172. *)
Definition is_builtin_or_custom (cls : daemon_class) (method : json) : outcome bool :=
  let* h := py_hash method in
  Returns (match h with
           | KStr name =>
               bool_decide (name ∈ base_methods)
               || bool_decide (is_Some (supported_methods cls !! name))
           | _ => false
           end).

Definition respond (r : response) (st : daemon) : outcome response * daemon :=
  (Returns r, st).

(** Lines 212-225: the response to the outcome of the call. *)
Definition reply (cls : daemon_class) (id : json) (r : outcome json * daemon)
    : outcome response * daemon :=
  match r with
  | (Returns result, st1) => respond (RpcResult result id) st1
  | (Raises e, st1) => respond (RpcError (-32601) (format_exc_last_line cls e) id) st1
  | (Hangs, st1) => (Hangs, st1)
  end.

(** Lines 180-225, entered with the loader's wallet when it returned. *)
Definition dispatch (cls : daemon_class) (method id xpub params : json)
    (wallet : option nat) : M response := λ st,
  match resolve_method cls method with
  | Returns (Some m) => reply cls id (invoke cls m xpub wallet params st)
  | Returns None => respond (RpcError (-32601) "Procedure not found." id) st
  | Raises e => (Raises e, st)
  | Hangs => (Hangs, st)
  end.

(** Lines 147-225: the request after authentication. *)
Definition handle_authenticated (cls : daemon_class) (r : request) : M response := λ st,
  if String.eqb (content_type r) "application/json" then
    match body r with
    | Some (JObj data) =>
        let method := default JNull (data !! "method") in
        let id := default JNull (data !! "id") in
        let xpub := default JNull (data !! "xpub") in
        let params := default (JArr []) (data !! "params") in
        if negb (truthy method)
        then respond (RpcError (-32601) "Procedure not found." id) st
        else
          match load_wallet cls xpub st with
          | (Returns l, st1) => dispatch cls method id xpub params (ld_wallet l) st1
          | (Raises _, st1) =>
              match is_builtin_or_custom cls method with
              | Returns true => dispatch cls method id xpub params None st1
              | Returns false => respond (RpcError (-32601) "Error loading wallet" id) st1
              | Raises e => (Raises e, st1)
              | Hangs => (Hangs, st1)
              end
          | (Hangs, st1) => (Hangs, st1)
          end
    | Some _ => (Raises (AttributeError "object has no attribute 'get'"), st)
    | None => (Raises JSONDecodeError, st)
    end
  else respond (RpcError (-32600) "Invalid JSON-RPC." JNull) st.

(** [handle_request], lines 136-225.  [Returns] is a JSON response with
    status 200; [Raises] is an exception that leaves the handler, which
    the HTTP server answers with a status other than 200. *)
Definition handle_request (cls : daemon_class) (r : request) : M response := λ st,
  match decode_auth cls (authorization r) with
  | Returns (user, password) =>
      if bool_decide (user = Some (LOGIN cls)) && bool_decide (password = Some (PASSWORD cls))
      then handle_authenticated cls r st
      else respond (RpcError (-32600) "Unauthorized" JNull) st
  | Raises e => (Raises e, st)
  | Hangs => (Hangs, st)
  end.


(** ** Calls of the built-in methods *)





(** The response made of the outcome of a call (lines 212-225): the
    result under the request's id, or code -32601 with the last line of
    the traceback. *)
Definition answer (cls : daemon_class) (id : json) (x : outcome json) : outcome response :=
  match x with
  | Returns result => Returns (RpcResult result id)
  | Raises e => Returns (RpcError (-32601) (format_exc_last_line cls e) id)
  | Hangs => Hangs
  end.

(** ** Interleaved loads

    [load_wallet] is a coroutine: while it sleeps in the loop of lines
    120-121 other coroutines run.  A [task] is a call of [load_wallet]
    between two such points; [task_step] runs it up to the next sleep or
    to its end. *)

Inductive task :=
  | TStart (xpub : json)
  | TPolling (xpub : string) (wallet cmd config : nat) (remaining : option nat)
  | TDone (r : outcome loaded).

(** What happens when [is_up_to_date()] is tested with [remaining] sleeps
    still needed. *)
Definition poll (xpub : string) (wallet cmd config : nat) (remaining : option nat)
    (st : daemon) : task * daemon :=
  match remaining with
  | Some O =>
      (TDone (Returns (Loaded (Some wallet) cmd config)),
       register (KStr xpub) wallet cmd config st)
  | Some (S n) => (TPolling xpub wallet cmd config (Some n), st)
  | None => (TPolling xpub wallet cmd config None, st)
  end.

Definition task_step (cls : daemon_class) (t : task) (st : daemon) : task * daemon :=
  match t with
  | TStart xpub =>
      match py_hash xpub with
      | Returns k =>
          match wallets st !! k with
          | Some wallet_data =>
              (TDone (Returns (Loaded (Some (wd_wallet wallet_data)) (wd_cmd wallet_data)
                                      (wd_config wallet_data))), st)
          | None =>
              let config := fresh st in
              let command_runner := S (fresh st) in
              let st1 := set_fresh (S (S (fresh st))) st in
              if negb (truthy xpub)
              then (TDone (Returns (Loaded None command_runner config)), st1)
              else
                match xpub with
                | JStr s =>
                    match open_wallet cls s st1 with
                    | (Returns wallet, st2) =>
                        poll s wallet command_runner config (sync_polls cls s) st2
                    | (Raises e, st2) => (TDone (Raises e), st2)
                    | (Hangs, st2) => (TDone Hangs, st2)
                    end
                | _ =>
                    (TDone (Raises (TypeError "expected str, bytes or os.PathLike object")),
                     st1)
                end
          end
      | Raises e => (TDone (Raises e), st)
      | Hangs => (TDone Hangs, st)
      end
  | TPolling s wallet cmd config remaining => poll s wallet cmd config remaining st
  | TDone r => (TDone r, st)
  end.

(** One task running alone for [n] steps. *)
Fixpoint run_alone (cls : daemon_class) (n : nat) (t : task) (st : daemon) : task * daemon :=
  match n with
  | O => (t, st)
  | S n' => let '(t1, st1) := task_step cls t st in run_alone cls n' t1 st1
  end.

(** Several tasks; the schedule names the task that runs next. *)
Fixpoint run_schedule (cls : daemon_class) (schedule : list nat) (ts : list task)
    (st : daemon) : list task * daemon :=
  match schedule with
  | [] => (ts, st)
  | i :: rest =>
      match ts !! i with
      | Some t =>
          let '(t1, st1) := task_step cls t st in
          run_schedule cls rest (<[i := t1]> ts) st1
      | None => run_schedule cls rest ts st
      end
  end.

(** Resolutions that run one after the other, each to its end; nothing
    runs after one that never returns. *)
Fixpoint load_each (cls : daemon_class) (xpubs : list json) (st : daemon)
    : list (outcome loaded) * daemon :=
  match xpubs with
  | [] => ([], st)
  | xpub :: rest =>
      match load_wallet cls xpub st with
      | (Hangs, st1) => ([Hangs], st1)
      | (r, st1) => let '(rs, st2) := load_each cls rest st1 in (r :: rs, st2)
      end
  end.

(** ** The registry invariant *)

(** The state [__init__] leaves (lines 78-80). *)
Definition initial : daemon := Daemon ∅ ∅ ∅ ∅ 0.

(** The three dictionaries have the same keys, every key is a non-empty
    string, and distinct sessions hold distinct wallet objects, all created
    before [fresh].  It holds of [initial], and the loader, the built-in
    methods and the network callback keep it, also when loads interleave. *)
Record wf (st : daemon) : Prop := Wf {
  wf_config : dom (wallets_config st) = dom (wallets st);
  wf_updates : dom (wallets_updates st) = dom (wallets st);
  wf_keys : ∀ i d, wallets st !! i = Some d → ∃ s, i = KStr s ∧ s ≠ EmptyString;
  wf_fresh : ∀ i d, wallets st !! i = Some d → wd_wallet d < fresh st;
  wf_inj : ∀ i j di dj,
    wallets st !! i = Some di → wallets st !! j = Some dj →
    wd_wallet di = wd_wallet dj → i = j
}.

(** Task [i] sleeps in the loader of wallet [s], holding the wallet
    object [w]. *)
Definition holds (ts : list task) (i : nat) (s : string) (w : nat) : Prop :=
  ∃ c cf rem, ts !! i = Some (TPolling s w c cf rem).

(** The invariant of a pool of loader tasks: the registry invariant, and
    every sleeping task holds a wallet object that no session and no other
    task holds. *)
Definition pool_ok (ts : list task) (st : daemon) : Prop :=
  wf st
  ∧ ∀ i s w, holds ts i s w →
      s ≠ EmptyString ∧ w < fresh st
      ∧ (∀ k d, wallets st !! k = Some d → wd_wallet d ≠ w)
      ∧ ∀ j s' w', j ≠ i → holds ts j s' w' → w' ≠ w.

(** The three dictionaries of [st1] are those of [st]. *)
Definition same_maps (st1 st : daemon) : Prop :=
  wallets st1 = wallets st
  ∧ wallets_config st1 = wallets_config st
  ∧ wallets_updates st1 = wallets_updates st.

(** Whether the test of lines 238-239 lets session [i] have the event. *)
Definition accepts (mapped_event : pykey) (wallet : option nat)
    (ws : gmap pykey wallet_data) (i : pykey) (cfg : wallet_config) : bool :=
  bool_decide (mapped_event ∈ events cfg)
  && match wallet with
     | None => true
     | Some h =>
         match ws !! i with
         | Some wd => bool_decide (h = wd_wallet wd)
         | None => false
         end
     end.

Definition nonempty_str (k : pykey) : bool :=
  match k with
  | KStr s => negb (String.eqb s "")
  | _ => false
  end.

(** [wf] as a test. *)
Definition wf_check (st : daemon) : bool :=
  bool_decide (dom (wallets_config st) = dom (wallets st))
  && bool_decide (dom (wallets_updates st) = dom (wallets st))
  && forallb (λ p, nonempty_str p.1 && (wd_wallet p.2 <? fresh st)) (map_to_list (wallets st))
  && bool_decide (NoDup ((λ p, wd_wallet p.2) <$> map_to_list (wallets st))).

(** ** A concrete daemon

    Values of the kind a coin daemon supplies, for running the model on
    examples. *)

Definition b64_value (c : ascii) : option N :=
  let n := N_of_ascii c in
  if (65 <=? n)%N && (n <=? 90)%N then Some (n - 65)%N
  else if (97 <=? n)%N && (n <=? 122)%N then Some (n - 71)%N
  else if (48 <=? n)%N && (n <=? 57)%N then Some (n + 4)%N
  else if (n =? 43)%N then Some 62%N
  else if (n =? 47)%N then Some 63%N
  else None.

(** The non-strict decoder of [binascii.a2b_base64]: characters outside
    the alphabet are skipped, a sufficient run of [=] ends the input, and
    an incomplete final group is an error. *)
Fixpoint a2b_base64 (s : string) (quad_pos : nat) (leftchar : N) (pads : nat)
    : outcome string :=
  match s with
  | EmptyString =>
      if Nat.eqb quad_pos 0 then Returns EmptyString
      else Raises (BinasciiError "Incorrect padding")
  | String c rest =>
      if Ascii.eqb c "=" then
        if (2 <=? quad_pos) && (4 <=? quad_pos + S pads) then Returns EmptyString
        else a2b_base64 rest quad_pos leftchar (if 2 <=? quad_pos then S pads else pads)
      else
        match b64_value c with
        | None => a2b_base64 rest quad_pos leftchar pads
        | Some v =>
            match quad_pos with
            | 0 => a2b_base64 rest 1 v 0
            | 1 =>
                let* out := a2b_base64 rest 2 (N.land v 15) 0 in
                Returns (String (ascii_of_N (N.lor (N.shiftl leftchar 2) (N.shiftr v 4))) out)
            | 2 =>
                let* out := a2b_base64 rest 3 (N.land v 3) 0 in
                Returns (String (ascii_of_N (N.lor (N.shiftl leftchar 4) (N.shiftr v 2))) out)
            | _ =>
                let* out := a2b_base64 rest 0 0%N 0 in
                Returns (String (ascii_of_N (N.lor (N.shiftl leftchar 6) v)) out)
            end
        end
  end.

Definition sample_b64decode (s : string) : outcome string :=
  if forallb (λ c, (N_of_ascii c <? 128)%N) (String.list_ascii_of_string s)
  then a2b_base64 s 0 0%N 0
  else Raises (ValueError "string argument should contain only ASCII characters").

(** The callback arguments of the sample daemon carry the payload and the
    wallet; its hook hands them on whatever the tag is. *)
Definition sample : daemon_class := {|
  LOGIN := "electrum";
  PASSWORD := "electrumz";
  EVENT_MAPPING := {[ "blockchain_updated" := "new_block";
                      "new_transaction" := "new_transaction" ]};
  callback_args := option (gmap string json) * option nat;
  process_events := λ _ args, Returns args;
  supported_methods := ∅;
  command_attrs := {[ "getinfo"; "getbalance" ]};
  known_commands := {[ "getinfo" := false; "getbalance" := true ]};
  run_command := λ name _ _, Returns (JStr name);
  restore_ok := λ xpub, negb (String.eqb xpub "invalid");
  wallet_ok := λ _, true;
  sync_polls := λ _, Some 1;
  wallet_dir := "/data/wallets";
  storage_path := λ path, path;
  b64decode := sample_b64decode;
  format_exc_last_line := λ e,
    match e with
    | KeyError _ => "KeyError"
    | TypeError m => "TypeError: " +:+ m
    | ValueError m => "ValueError: " +:+ m
    | AttributeError m => "AttributeError: " +:+ m
    | UnboundLocalError _ => "UnboundLocalError"
    | BinasciiError m => "binascii.Error: " +:+ m
    | JSONDecodeError => "json.decoder.JSONDecodeError"
    | LibraryError m => "Exception: " +:+ m
    end
|}.

(** ** Example requests and states *)

(** [Basic] followed by the base64 form of [electrum:electrumz]. *)
Definition good_auth : option string := Some "Basic ZWxlY3RydW06ZWxlY3RydW16".


(** [Basic] followed by the base64 form of [user], which has no colon. *)
Definition malformed_auth : option string := Some "Basic dXNlcg==".

Definition rpc_body (method : string) (xpub params : json) : json :=
  JObj {[ "method" := JStr method; "xpub" := xpub; "params" := params; "id" := JNum 7 ]}.

Definition rpc_request (method : string) (xpub params : json) : request :=
  Request good_auth "application/json" (Some (rpc_body method xpub params)).

(** The state after wallet [abc] was loaded. *)
Definition st_abc : daemon := (load_wallet sample (JStr "abc") initial).2.

(** Then subscribed to the public tag [new_block]. *)
Definition st_abc_block : daemon :=
  (subscribe (JArr [JStr "new_block"]) (JStr "abc") st_abc).2.

(** Or subscribed with [{"events": [null]}]. *)
Definition st_abc_null : daemon :=
  (subscribe (JArr [JNull]) (JStr "abc") st_abc).2.

(** Two wallets, both subscribed to [new_block]. *)
Definition st_two : daemon :=
  (subscribe (JArr [JStr "new_block"]) (JStr "xyz")
     (load_wallet sample (JStr "xyz") st_abc_block).2).2.

Definition block_payload : gmap string json := {[ "height" := JNum 5 ]}.

Definition block_record : gmap string json :=
  {[ "height" := JNum 5; "event" := JStr "new_block" ]}.

(** [st_two] after a [new_block] event was queued for both wallets. *)
Definition st_two_queued : daemon :=
  (_process_events sample "blockchain_updated" (Some block_payload, None) st_two).2.

(** Two requests for the unseen wallet [abc] arriving together. *)
Definition two_loads : list task := [TStart (JStr "abc"); TStart (JStr "abc")].

(** The triple [load_wallet] returns for a stored session. *)
Definition stored (d : wallet_data) : loaded :=
  Loaded (Some (wd_wallet d)) (wd_cmd d) (wd_config d).

Definition response_id (r : response) : json :=
  match r with
  | RpcError _ _ id => id
  | RpcResult _ id => id
  end.

(** The sample daemon with a wallet library that never reports a wallet
    as synchronized. *)
Definition stalled : daemon_class := {|
  LOGIN := LOGIN sample;
  PASSWORD := PASSWORD sample;
  EVENT_MAPPING := EVENT_MAPPING sample;
  callback_args := callback_args sample;
  process_events := process_events sample;
  supported_methods := supported_methods sample;
  command_attrs := command_attrs sample;
  known_commands := known_commands sample;
  run_command := run_command sample;
  restore_ok := restore_ok sample;
  wallet_ok := wallet_ok sample;
  sync_polls := λ _, None;
  wallet_dir := wallet_dir sample;
  storage_path := storage_path sample;
  b64decode := b64decode sample;
  format_exc_last_line := format_exc_last_line sample
|}.

(** A handler as an [@rpc] method of a subclass would be: it leaves a
    file behind and returns its positional arguments followed by the
    [wallet] keyword it was called with. *)
Definition echo : list json → gmap string json → M json := λ pos kw st,
  (Returns (JArr (pos ++ [default JNull (kw !! "wallet")])), add_file "echo.log" st).

(** The sample daemon with that handler. *)
Definition with_echo : daemon_class := {|
  LOGIN := LOGIN sample;
  PASSWORD := PASSWORD sample;
  EVENT_MAPPING := EVENT_MAPPING sample;
  callback_args := callback_args sample;
  process_events := process_events sample;
  supported_methods := {[ "echo" := echo ]};
  command_attrs := command_attrs sample;
  known_commands := known_commands sample;
  run_command := run_command sample;
  restore_ok := restore_ok sample;
  wallet_ok := wallet_ok sample;
  sync_polls := sync_polls sample;
  wallet_dir := wallet_dir sample;
  storage_path := storage_path sample;
  b64decode := b64decode sample;
  format_exc_last_line := format_exc_last_line sample
|}.

(** [Basic] followed by the base64 form of [electrum:wrong:pw]: a wrong
    password that contains a colon. *)
Definition colon_auth : option string := Some "Basic ZWxlY3RydW06d3Jvbmc6cHc=".

(** A request for the queue of [xyz] that has no [xpub] of its own. *)
Definition no_xpub_request : request :=
  Request good_auth "application/json"
    (Some (JObj {[ "method" := JStr "get_updates";
                   "params" := JObj {[ "wallet" := JStr "xyz" ]};
                   "id" := JNum 7 ]})).

(** The record [_process_events] builds from a tag and the hook's
    payload (lines 229 and 236). *)
Definition event_record (mapped_event : pykey) (data_got : gmap string json)
    : gmap string json :=
  data_got ∪ {[ "event" := key_json mapped_event ]}.

(** [st_two] with a second event, of another kind, still to come. *)
Definition tx_payload : gmap string json := {[ "tx" := JStr "f00d" ]}.

Definition st_two_both : daemon :=
  (subscribe (JArr [JStr "new_transaction"]) (JStr "abc") st_two).2.

(** The number of colons in a string. *)
Fixpoint count_colons (s : string) : nat :=
  match s with
  | EmptyString => 0
  | String c rest => (if Ascii.eqb c ":" then 1 else 0) + count_colons rest
  end.

(** [":".join(pieces)]. *)
Fixpoint join_colon (pieces : list string) : string :=
  match pieces with
  | [] => EmptyString
  | [piece] => piece
  | piece :: rest => piece +:+ String ":" (join_colon rest)
  end.

(** * Properties *)

(** ** Python values *)

Lemma py_hash_key_json (k : pykey) : py_hash (key_json k) = Returns k.
Proof. by destruct k. Qed.

Lemma py_hash_fmap_key_json (l : list pykey) (s : gset pykey) :
  set_update s (key_json <$> l) = (Returns (), s ∪ list_to_set l).
Proof.
  revert s. induction l as [|k l IH]; intros s; simpl.
  - by rewrite union_empty_r_L.
  - rewrite py_hash_key_json, IH. by rewrite (assoc_L (∪)).
Qed.

(** ** Built-in methods *)




Lemma subscribe_known (l : list pykey) (k : pykey) (cfg : wallet_config) (st : daemon) :
  wallets_config st !! k = Some cfg →
  subscribe (JArr (key_json <$> l)) (key_json k) st
  = (Returns (),
     set_wallets_config
       (<[k := WalletConfig (events cfg ∪ list_to_set l)]> (wallets_config st)) st).
Proof.
  intros Hk. unfold subscribe, dict_getitem. rewrite py_hash_key_json. simpl.
  rewrite Hk. simpl. by rewrite py_hash_fmap_key_json.
Qed.

(** With no tags given, the generator keeps exactly the elements that are
    not keys of the mapping. *)
Lemma filter_not_in_keys (ks : gset string) (l : list pykey) :
  ∃ kept, filter_not_in (CKeys ks) l = Returns kept
    ∧ ∀ i, i ∈ kept ↔ i ∈ l ∧ ∀ s, i = KStr s → s ∉ ks.
Proof.
  induction l as [|j l (kept & IH & Hkept)].
  - exists []. split; [done|]. intros i. split; [by intros ?%elem_of_nil|].
    by intros [?%elem_of_nil _].
  - simpl. rewrite IH. simpl.
    assert (Hcons : ∀ i, i ∈ j :: kept ↔ i ∈ j :: l ∧ (i = j ∨ ∀ s, i = KStr s → s ∉ ks)).
    { intros i. rewrite !elem_of_cons, Hkept. naive_solver. }
    destruct j as [|n|s0].
    + eexists. split; [done|]. intros i. rewrite Hcons. naive_solver.
    + eexists. split; [done|]. intros i. rewrite Hcons. naive_solver.
    + case_bool_decide as Hs; (eexists; split; [done|]); intros i.
      * rewrite Hkept, elem_of_cons. naive_solver.
      * rewrite Hcons. naive_solver.
Qed.

(** X27: What [unsubscribe] without tags does: it removes the raw event kinds,
    the keys of [EVENT_MAPPING], from the subscription set. *)
Lemma unsubscribe_all_removes_raw_kinds (m : gmap string string) (k : pykey)
    (cfg : wallet_config) (st : daemon) :
  wallets_config st !! k = Some cfg →
  ∃ st1, unsubscribe m JNull (key_json k) st = (Returns (), st1)
    ∧ ∃ cfg1, wallets_config st1 !! k = Some cfg1
      ∧ ∀ i, i ∈ events cfg1 ↔ i ∈ events cfg ∧ ∀ s, i = KStr s → m !! s = None.
Proof.
  intros Hk. unfold unsubscribe, dict_getitem. rewrite py_hash_key_json. simpl.
  rewrite Hk. destruct (filter_not_in_keys (dom m) (elements (events cfg)))
    as (kept & -> & Hkept).
  eexists. split; [done|].
  eexists. split; [apply lookup_insert_eq|].
  intros i. simpl. rewrite elem_of_list_to_set, Hkept, elem_of_elements.
  split; intros [H1 H2]; (split; [done|]); intros s Hs.
  - apply not_elem_of_dom. by apply H2.
  - apply not_elem_of_dom. by apply H2.
Qed.

(** C1: [unsubscribe] without tags is meant to clear the known event tags
    of a wallet.  Run on a wallet subscribed to the public tag [new_block],
    which [EVENT_MAPPING] gives to the raw kind [blockchain_updated], it
    returns normally and the wallet is still subscribed to [new_block]:
    the method tests the keys of the mapping where the subscription set
    holds its values. *)
Theorem unsubscribe_all_keeps_public_tag :
  EVENT_MAPPING sample !! "blockchain_updated" = Some "new_block"
  ∧ (events <$> wallets_config st_abc_block !! KStr "abc") = Some {[ KStr "new_block" ]}
  ∧ ∃ st1, unsubscribe (EVENT_MAPPING sample) JNull (JStr "abc") st_abc_block
           = (Returns (), st1)
      ∧ (events <$> wallets_config st1 !! KStr "abc") = Some {[ KStr "new_block" ]}.
Proof.
  split; [by vm_compute|]. split; [by vm_compute|].
  eexists. split; [reflexivity|]. by vm_compute.
Qed.

(** C4: for a wallet with a pending-event queue [q], [get_updates] returns
    [q] and leaves the wallet's queue empty, touching nothing else; called
    again at once it returns the empty sequence. *)
Theorem get_updates_drains_once (k : pykey) (q : list (gmap string json)) (st : daemon) :
  wallets_updates st !! k = Some q →
  ∃ st1, get_updates (key_json k) st = (Returns q, st1)
    ∧ wallets_updates st1 = <[k := []]> (wallets_updates st)
    ∧ wallets st1 = wallets st
    ∧ wallets_config st1 = wallets_config st
    ∧ get_updates (key_json k) st1 = (Returns [], st1).
Proof.
  intros Hk. unfold get_updates, dict_getitem. rewrite py_hash_key_json. simpl.
  rewrite Hk. eexists. split; [done|]. simpl. repeat (split; [done|]).
  rewrite lookup_insert_eq. unfold set_wallets_updates. simpl.
  by rewrite insert_insert_eq.
Qed.

Lemma get_updates_drains_once_witness :
  wallets_updates st_two_queued !! KStr "abc" = Some [block_record]
  ∧ ∃ st1, get_updates (JStr "abc") st_two_queued = (Returns [block_record], st1)
      ∧ get_updates (JStr "abc") st1 = (Returns [], st1).
Proof.
  assert (H : wallets_updates st_two_queued !! KStr "abc" = Some [block_record])
    by (vm_compute; reflexivity).
  split; [exact H|].
  destruct (get_updates_drains_once (KStr "abc") [block_record] st_two_queued H)
    as (st1 & H1 & _ & _ & _ & H2).
  exists st1. split; assumption.
Defined.

(** C8: [subscribe] accumulates by set union: after subscribing a wallet
    to the tags [l1] and then to the tags [l2], its subscription set is the
    one it had, united with both. *)
Theorem subscribe_accumulates (k : pykey) (cfg : wallet_config) (l1 l2 : list pykey)
    (st : daemon) :
  wallets_config st !! k = Some cfg →
  ∃ st1 st2,
    subscribe (JArr (key_json <$> l1)) (key_json k) st = (Returns (), st1)
    ∧ subscribe (JArr (key_json <$> l2)) (key_json k) st1 = (Returns (), st2)
    ∧ (events <$> wallets_config st2 !! k)
      = Some (events cfg ∪ list_to_set l1 ∪ list_to_set l2).
Proof.
  intros Hk. rewrite (subscribe_known l1 k cfg st Hk).
  eexists. eexists. split; [reflexivity|].
  erewrite subscribe_known; [|apply lookup_insert_eq].
  split; [reflexivity|]. simpl. by rewrite lookup_insert_eq.
Qed.

Lemma subscribe_accumulates_witness :
  (events <$> wallets_config st_abc !! KStr "abc") = Some ∅
  ∧ ∃ st1 st2,
      subscribe (JArr [JStr "A"; JStr "B"]) (JStr "abc") st_abc = (Returns (), st1)
      ∧ subscribe (JArr [JStr "B"; JStr "C"]) (JStr "abc") st1 = (Returns (), st2)
      ∧ (events <$> wallets_config st2 !! KStr "abc")
        = Some {[ KStr "A"; KStr "B"; KStr "C" ]}.
Proof.
  split; [vm_compute; reflexivity|].
  destruct (subscribe_accumulates (KStr "abc") (WalletConfig ∅)
              [KStr "A"; KStr "B"] [KStr "B"; KStr "C"] st_abc)
    as (st1 & st2 & H1 & H2 & H3); [vm_compute; reflexivity|].
  exists st1, st2. split; [exact H1|]. split; [exact H2|].
  rewrite H3. vm_compute. reflexivity.
Defined.

(** ** The registry invariant *)

Lemma NoDup_fmap_eq {A B} (f : A → B) (l : list A) (x y : A) :
  NoDup (f <$> l) → x ∈ l → y ∈ l → f x = f y → x = y.
Proof.
  induction l as [|a l IH]; simpl; [by intros _ ?%elem_of_nil|].
  rewrite NoDup_cons, !elem_of_cons. intros [Ha Hl] [->|Hx] [->|Hy] Hf; [done| | |by apply IH].
  - exfalso. apply Ha. rewrite Hf. by apply list_elem_of_fmap_2.
  - exfalso. apply Ha. rewrite <- Hf. by apply list_elem_of_fmap_2.
Qed.

Lemma wf_check_sound (st : daemon) : wf_check st = true → wf st.
Proof.
  unfold wf_check. rewrite !andb_true_iff, !bool_decide_eq_true.
  intros [[[Hc Hu] Hall] Hnd].
  assert (Hin : ∀ i d, wallets st !! i = Some d →
            nonempty_str i && (wd_wallet d <? fresh st) = true).
  { intros i d Hi. rewrite forallb_forall in Hall.
    apply (Hall (i, d)). apply list_elem_of_In. by apply elem_of_map_to_list. }
  split; [done|done| | |].
  - intros i d Hi. apply Hin, andb_true_iff in Hi as [Hi _].
    destruct i as [| |s]; try done. exists s. split; [done|].
    intros ->. done.
  - intros i d Hi. apply Hin, andb_true_iff in Hi as [_ Hi].
    by apply Nat.ltb_lt.
  - intros i j di dj Hi Hj Heq.
    apply elem_of_map_to_list in Hi, Hj.
    by injection (NoDup_fmap_eq (λ p, wd_wallet p.2) _ _ _ Hnd Hi Hj Heq).
Qed.

Lemma wf_initial : wf initial.
Proof. apply wf_check_sound. by vm_compute. Qed.


Lemma wf_registered (st : daemon) (k : pykey) (d : wallet_data) :
  wf st → wallets st !! k = Some d →
  is_Some (wallets_config st !! k) ∧ is_Some (wallets_updates st !! k).
Proof.
  intros Hwf Hk. rewrite <- !elem_of_dom.
  rewrite (wf_config st Hwf), (wf_updates st Hwf). split; by apply elem_of_dom.
Qed.


(** ** Loading a wallet *)

Lemma open_wallet_spec (cls : daemon_class) (s : string) (st st2 : daemon)
    (r : outcome nat) :
  open_wallet cls s st = (r, st2) →
  same_maps st2 st ∧ fresh st ≤ fresh st2
  ∧ ∀ w, r = Returns w → fresh st ≤ w < fresh st2.
Proof.
  unfold open_wallet, same_maps. intros H.
  repeat case_match; simplify_eq/=; (split; [done|]); (split; [lia|]);
    intros w' ?; simplify_eq; lia.
Qed.

Lemma load_wallet_registered (cls : daemon_class) (xpub : json) (k : pykey)
    (d : wallet_data) (st : daemon) :
  py_hash xpub = Returns k → wallets st !! k = Some d →
  load_wallet cls xpub st
  = (Returns (Loaded (Some (wd_wallet d)) (wd_cmd d) (wd_config d)), st).
Proof. intros Hh Hk. unfold load_wallet. by rewrite Hh, Hk. Qed.

(** A load either leaves the three dictionaries alone, or it is the first
    load of a non-empty string and stores a session of new objects. *)
Lemma load_wallet_cases (cls : daemon_class) (xpub : json) (st st1 : daemon)
    (r : outcome loaded) :
  load_wallet cls xpub st = (r, st1) →
  (same_maps st1 st ∧ fresh st ≤ fresh st1
   ∧ ∀ l w, r = Returns l → ld_wallet l = Some w →
       ∃ k d, py_hash xpub = Returns k ∧ wallets st !! k = Some d
         ∧ l = Loaded (Some (wd_wallet d)) (wd_cmd d) (wd_config d))
  ∨ (∃ s w c cf, xpub = JStr s ∧ s ≠ EmptyString ∧ wallets st !! KStr s = None
       ∧ r = Returns (Loaded (Some w) c cf)
       ∧ wallets st1 = <[KStr s := WalletData w c cf]> (wallets st)
       ∧ wallets_config st1 = <[KStr s := WalletConfig ∅]> (wallets_config st)
       ∧ wallets_updates st1 = <[KStr s := []]> (wallets_updates st)
       ∧ fresh st ≤ w < fresh st1).
Proof.
  unfold load_wallet. intros H.
  destruct (py_hash xpub) as [k| |] eqn:Hh; simplify_eq/=;
    [|left; by repeat split..].
  destruct (wallets st !! k) as [d|] eqn:Hk; simplify_eq/=.
  { left. repeat split; [lia|]. intros l w [= <-] _. by exists k, d. }
  destruct (truthy xpub) eqn:Ht; simplify_eq/=;
    [|left; repeat split; [lia|]; by intros l w [= <-] ?].
  destruct xpub as [|b|n|s| |]; simplify_eq/=;
    try (left; repeat split; [lia|]; by intros l w ? ?).
  destruct (open_wallet cls s _) as [ro st2] eqn:Ho.
  apply open_wallet_spec in Ho as ((Hw & Hc & Hu) & Hf & Hr). simpl in *.
  destruct ro as [w| |]; simplify_eq/=;
    try (left; repeat split; [done|done|done|lia|]; by intros l w ? ?).
  destruct (sync_polls cls s); simplify_eq/=;
    [|left; repeat split; [done|done|done|lia|]; by intros l w' ? ?].
  right. exists s, w, (S (fresh st)), (fresh st).
  specialize (Hr w eq_refl). repeat split; try done; try lia.
  - intros ->. done.
  - by rewrite Hw.
  - by rewrite Hc.
  - by rewrite Hu.
Qed.


Lemma load_wallet_preserves (cls : daemon_class) (xpub : json) (st st1 : daemon)
    (r : outcome loaded) (k : pykey) (d : wallet_data) :
  load_wallet cls xpub st = (r, st1) →
  wallets st !! k = Some d → wallets st1 !! k = Some d.
Proof.
  intros H Hk. apply load_wallet_cases in H as [((-> & _) & _)|(s & w & c & cf & H)];
    [done|].
  destruct H as (_ & _ & Hs & _ & -> & _).
  rewrite lookup_insert_ne; [done|]. intros <-. congruence.
Qed.

Lemma load_wallet_stores (cls : daemon_class) (xpub : json) (st st1 : daemon)
    (l : loaded) (w : nat) :
  load_wallet cls xpub st = (Returns l, st1) → ld_wallet l = Some w →
  ∃ k, py_hash xpub = Returns k
    ∧ wallets st1 !! k = Some (WalletData w (ld_cmd l) (ld_config l)).
Proof.
  intros H Hw. apply load_wallet_cases in H as [((Hm & _) & _ & H)|(s & w' & c & cf & H)].
  - destruct (H l w eq_refl Hw) as (k & d & Hh & Hk & ->). exists k.
    simpl in *. simplify_eq. rewrite Hm. by destruct d.
  - destruct H as (-> & _ & _ & [= ->] & -> & _). exists (KStr s).
    simpl in *. simplify_eq. by rewrite lookup_insert_eq.
Qed.

Lemma load_wallet_wf (cls : daemon_class) (xpub : json) (st st1 : daemon)
    (r : outcome loaded) :
  load_wallet cls xpub st = (r, st1) → wf st → wf st1.
Proof.
  intros H [Hc Hu Hk Hf Hi].
  apply load_wallet_cases in H as [((Hw1 & Hc1 & Hu1) & Hle & _)|(s & w & c & cf & H)].
  - split; rewrite ?Hw1, ?Hc1, ?Hu1; try done.
    intros i d Hd. specialize (Hf i d Hd). lia.
  - destruct H as (_ & Hs & Hnone & _ & Hw1 & Hc1 & Hu1 & Hlt).
    split; rewrite ?Hw1, ?Hc1, ?Hu1.
    + by rewrite !dom_insert_L, Hc.
    + by rewrite !dom_insert_L, Hu.
    + intros i d [[<- <-]|[_ Hd]]%lookup_insert_Some; [by exists s|by eapply Hk].
    + intros i d [[<- <-]|[_ Hd]]%lookup_insert_Some; simpl; [lia|].
      specialize (Hf i d Hd). lia.
    + intros i j di dj [[<- <-]|[? Hdi]]%lookup_insert_Some
        [[<- <-]|[? Hdj]]%lookup_insert_Some Heq; simpl in *; try done.
      * specialize (Hf j dj Hdj). lia.
      * specialize (Hf i di Hdi). lia.
      * by eapply Hi.
Qed.

Lemma load_each_preserves (cls : daemon_class) (xpubs : list json) (st st1 : daemon)
    (rs : list (outcome loaded)) (k : pykey) (d : wallet_data) :
  load_each cls xpubs st = (rs, st1) →
  wallets st !! k = Some d → wallets st1 !! k = Some d.
Proof.
  revert st rs. induction xpubs as [|x xs IH]; intros st rs H Hk; simpl in H.
  { by simplify_eq. }
  destruct (load_wallet cls x st) as [r st2] eqn:Hl.
  pose proof (load_wallet_preserves _ _ _ _ _ _ _ Hl Hk) as Hk2.
  destruct (load_each cls xs st2) as [rs2 st3] eqn:He.
  destruct r; simplify_eq; try done; by eapply IH.
Qed.

Lemma load_each_registered (cls : daemon_class) (xpub : json) (k : pykey)
    (d : wallet_data) (xpubs : list json) (st st1 : daemon)
    (rs : list (outcome loaded)) (j : nat) (r : outcome loaded) :
  py_hash xpub = Returns k → wallets st !! k = Some d →
  load_each cls xpubs st = (rs, st1) →
  xpubs !! j = Some xpub → rs !! j = Some r → r = Returns (stored d).
Proof.
  intros Hh. revert st rs j. induction xpubs as [|x xs IH]; intros st rs j Hk H Hx Hr.
  { by rewrite lookup_nil in Hx. }
  simpl in H. destruct (load_wallet cls x st) as [r0 st2] eqn:Hl.
  pose proof (load_wallet_preserves _ _ _ _ _ _ _ Hl Hk) as Hk2.
  assert (Hhead : x = xpub → r0 = Returns (stored d)).
  { intros ->. rewrite (load_wallet_registered cls xpub k d st Hh Hk) in Hl.
    by simplify_eq. }
  destruct (load_each cls xs st2) as [rs2 st3] eqn:He.
  destruct j as [|j]; simpl in Hx.
  - simplify_eq. specialize (Hhead eq_refl). subst r0. by simplify_eq/=.
  - destruct r0; simplify_eq/=; by eapply IH.
Qed.

Lemma open_wallet_returns_or_raises (cls : daemon_class) (s : string) (st st2 : daemon) :
  open_wallet cls s st ≠ (Hangs, st2).
Proof. unfold open_wallet. by repeat case_match. Qed.

(** Running alone, the task machine does what [load_wallet] does. *)
Lemma run_alone_polling (cls : daemon_class) (s : string) (w c cf m : nat) (st : daemon) :
  run_alone cls (S m) (TPolling s w c cf (Some m)) st
  = (TDone (Returns (Loaded (Some w) c cf)), register (KStr s) w c cf st).
Proof. induction m as [|m IH]; [done|]. by rewrite <- IH. Qed.

Lemma run_alone_never_synchronized (cls : daemon_class) (s : string) (w c cf n : nat)
    (st : daemon) :
  run_alone cls n (TPolling s w c cf None) st = (TPolling s w c cf None, st).
Proof. induction n as [|n IH]; [done|]. by simpl. Qed.

Lemma run_alone_S (cls : daemon_class) (n : nat) (t : task) (st : daemon) :
  run_alone cls (S n) t st
  = run_alone cls n (task_step cls t st).1 (task_step cls t st).2.
Proof. simpl. by destruct (task_step cls t st). Qed.

(** A task running alone ends as [load_wallet] does, when that returns or
    raises ... *)
Lemma run_alone_load_wallet (cls : daemon_class) (xpub : json) (st st1 : daemon)
    (r : outcome loaded) :
  load_wallet cls xpub st = (r, st1) → r ≠ Hangs →
  ∃ n, run_alone cls n (TStart xpub) st = (TDone r, st1).
Proof.
  intros H Hr.
  assert (Hone : task_step cls (TStart xpub) st = (TDone r, st1) →
            ∃ n, run_alone cls n (TStart xpub) st = (TDone r, st1)).
  { intros Hs. exists 1. by rewrite run_alone_S, Hs. }
  unfold load_wallet in H.
  destruct (py_hash xpub) as [k| |] eqn:Hh; [| |by destruct xpub].
  2:{ simplify_eq. apply Hone. simpl. by rewrite Hh. }
  destruct (wallets st !! k) as [d|] eqn:Hk.
  { simplify_eq. apply Hone. simpl. by rewrite Hh, Hk. }
  destruct (negb (truthy xpub)) eqn:Ht.
  { simplify_eq. apply Hone. simpl. by rewrite Hh, Hk, Ht. }
  destruct xpub as [|b|n0|s| |];
    try (simplify_eq; apply Hone; simpl in *; simplify_eq; by rewrite ?Hk, ?Ht).
  simpl in Hh. simplify_eq.
  destruct (open_wallet cls s _) as [ro st2] eqn:Ho.
  destruct ro as [w|e|].
  - destruct (sync_polls cls s) as [m|] eqn:Hs; simplify_eq.
    exists (S m). rewrite run_alone_S. simpl in *. rewrite Hk, Ht, Ho, Hs.
    destruct m as [|m]; [done|]. cbn [poll fst snd]. apply run_alone_polling.
  - simplify_eq. apply Hone. simpl in *. by rewrite Hk, Ht, Ho.
  - by destruct (open_wallet_returns_or_raises cls s _ _ Ho).
Qed.

(** ... and never ends when [load_wallet] does not. *)
Lemma run_alone_load_wallet_hangs (cls : daemon_class) (xpub : json) (st st1 : daemon) :
  load_wallet cls xpub st = (Hangs, st1) →
  ∀ n, ∃ s w c cf, run_alone cls (S n) (TStart xpub) st = (TPolling s w c cf None, st1).
Proof.
  intros H n. unfold load_wallet in H. rewrite run_alone_S. simpl.
  destruct (py_hash xpub) as [k| |] eqn:Hh; [| |by destruct xpub]; [|by simplify_eq].
  destruct (wallets st !! k) as [d|] eqn:Hk; [by simplify_eq|].
  destruct (negb (truthy xpub)) eqn:Ht; [by simplify_eq|].
  destruct xpub as [|b|n0|s| |]; try by simplify_eq.
  destruct (open_wallet cls s _) as [ro st2] eqn:Ho.
  destruct ro as [w|e|];
    [|by simplify_eq|by destruct (open_wallet_returns_or_raises cls s _ _ Ho)].
  destruct (sync_polls cls s) as [m|] eqn:Hs; simplify_eq. simpl.
  rewrite run_alone_never_synchronized. by repeat eexists.
Qed.

(** C9, as the code has it: resolving a registered identifier returns the
    stored session and changes nothing, and resolutions that run one after
    the other never replace a registered session, each resolution of that
    identifier returning the stored one. *)
Theorem sequential_loads_keep_session (cls : daemon_class) (xpub : json) (k : pykey)
    (d : wallet_data) (st : daemon) :
  py_hash xpub = Returns k → wallets st !! k = Some d →
  load_wallet cls xpub st = (Returns (stored d), st)
  ∧ ∀ xpubs rs st1, load_each cls xpubs st = (rs, st1) →
      wallets st1 !! k = Some d
      ∧ ∀ j r, xpubs !! j = Some xpub → rs !! j = Some r → r = Returns (stored d).
Proof.
  intros Hh Hk. split; [by apply (load_wallet_registered cls xpub k d st)|].
  intros xpubs rs st1 H. split; [by eapply load_each_preserves|].
  intros j r. by apply (load_each_registered cls xpub k d xpubs st st1 rs j r).
Qed.

Lemma sequential_loads_keep_session_witness :
  wallets st_abc !! KStr "abc" = Some (WalletData 2 1 0)
  ∧ load_wallet sample (JStr "abc") st_abc = (Returns (Loaded (Some 2) 1 0), st_abc)
  ∧ ∀ rs st1,
      load_each sample [JStr "xyz"; JStr "abc"; JNull; JStr "abc"] st_abc = (rs, st1) →
      wallets st1 !! KStr "abc" = Some (WalletData 2 1 0)
      ∧ rs !! 3 = Some (Returns (Loaded (Some 2) 1 0)).
Proof.
  assert (Hk : wallets st_abc !! KStr "abc" = Some (WalletData 2 1 0))
    by (vm_compute; reflexivity).
  destruct (sequential_loads_keep_session sample (JStr "abc") (KStr "abc")
              (WalletData 2 1 0) st_abc eq_refl Hk) as [H1 H2].
  split; [exact Hk|]. split; [exact H1|].
  intros rs st1 H. destruct (H2 _ rs st1 H) as [H3 H4].
  split; [exact H3|].
  assert (Hr : ∃ r, rs !! 3 = Some r).
  { vm_compute in H. injection H as <- _. by eexists. }
  destruct Hr as [r Hr]. rewrite Hr. f_equal. exact (H4 3 r eq_refl Hr).
Defined.

(** C9, as stated, fails for loads that overlap: two requests for the
    unseen wallet [abc] both pass the membership test before either stores
    its session; each gets a session of its own, and the second store
    replaces the entry the first had made. *)
Lemma concurrent_loads_two_sessions :
  (run_schedule sample [0; 1; 0; 1] two_loads initial).1
  = [TDone (Returns (Loaded (Some 2) 1 0)); TDone (Returns (Loaded (Some 5) 4 3))]
  ∧ wallets (run_schedule sample [0; 1; 0] two_loads initial).2 !! KStr "abc"
    = Some (WalletData 2 1 0)
  ∧ wallets (run_schedule sample [0; 1; 0; 1] two_loads initial).2 !! KStr "abc"
    = Some (WalletData 5 4 3).
Proof. repeat split; vm_compute; reflexivity. Qed.

(** ** Authentication *)



(** C2: the handler is meant to answer every request with a JSON-RPC
    object.  A header whose decoded text has no colon makes [decode_auth]
    raise, and a body that is not JSON makes [request.json()] raise; no
    [try] encloses either call, so the exception leaves the handler. *)
Theorem malformed_request_escapes (st : daemon) :
  handle_request sample
    (Request malformed_auth "application/json"
       (Some (rpc_body "get_updates" (JStr "abc") (JArr [])))) st
  = (Raises (ValueError "not enough values to unpack (expected 2, got 1)"), st)
  ∧ handle_request sample (Request good_auth "application/json" None) st
    = (Raises JSONDecodeError, st).
Proof. split; vm_compute; reflexivity. Qed.

(** C7: a request with wrong credentials is meant to be answered with
    the [Unauthorized] error whatever its body is.  A wrong password that
    contains a colon makes the decoded text split into three parts; the
    unpacking of line 133 raises, and as no [try] encloses the call of
    line 138 the exception leaves the handler, for every content type and
    body. *)
Theorem wrong_password_with_colon_escapes (ct : string) (b : option json) (st : daemon) :
  b64decode sample "ZWxlY3RydW06d3Jvbmc6cHc=" = Returns "electrum:wrong:pw"
  ∧ handle_request sample (Request colon_auth ct b) st
    = (Raises (ValueError "too many values to unpack (expected 2)"), st).
Proof. split; vm_compute; reflexivity. Qed.

(** ** Dispatch *)

Lemma handle_request_authenticated (cls : daemon_class) (auth : option string)
    (ct : string) (b : option json) (st : daemon) :
  decode_auth cls auth = Returns (Some (LOGIN cls), Some (PASSWORD cls)) →
  handle_request cls (Request auth ct b) st
  = handle_authenticated cls (Request auth ct b) st.
Proof.
  intros Hd. unfold handle_request. simpl. rewrite Hd.
  by rewrite !bool_decide_eq_true_2.
Qed.

Lemma truthy_name (name : string) : name ≠ EmptyString → truthy (JStr name) = true.
Proof.
  intros Hn. simpl. apply negb_true_iff. by apply String.eqb_neq.
Qed.

Lemma base_methods_cases (name : string) :
  name ∈ base_methods →
  name = "get_updates" ∨ name = "subscribe" ∨ name = "unsubscribe".
Proof.
  unfold base_methods. rewrite !elem_of_union, !elem_of_singleton. tauto.
Qed.




(** ** Calls of the built-in methods, as the handler makes them *)

Lemma handle_request_parsed (cls : daemon_class) (auth : option string)
    (data : gmap string json) (st : daemon) :
  decode_auth cls auth = Returns (Some (LOGIN cls), Some (PASSWORD cls)) →
  truthy (default JNull (data !! "method")) = true →
  handle_request cls (Request auth "application/json" (Some (JObj data))) st
  = match load_wallet cls (default JNull (data !! "xpub")) st with
    | (Returns l, st1) =>
        dispatch cls (default JNull (data !! "method")) (default JNull (data !! "id"))
          (default JNull (data !! "xpub")) (default (JArr []) (data !! "params"))
          (ld_wallet l) st1
    | (Raises _, st1) =>
        match is_builtin_or_custom cls (default JNull (data !! "method")) with
        | Returns true =>
            dispatch cls (default JNull (data !! "method")) (default JNull (data !! "id"))
              (default JNull (data !! "xpub")) (default (JArr []) (data !! "params"))
              None st1
        | Returns false =>
            respond (RpcError (-32601) "Error loading wallet"
                       (default JNull (data !! "id"))) st1
        | Raises e => (Raises e, st1)
        | Hangs => (Hangs, st1)
        end
    | (Hangs, st1) => (Hangs, st1)
    end.
Proof.
  intros Hd Ht. rewrite (handle_request_authenticated _ _ _ _ _ Hd).
  unfold handle_authenticated. simpl. by rewrite Ht.
Qed.












Lemma builtin_request_invoke (cls : daemon_class) (auth : option string)
    (data : gmap string json) (name : string) (r : outcome loaded) (st st1 : daemon) :
  decode_auth cls auth = Returns (Some (LOGIN cls), Some (PASSWORD cls)) →
  data !! "method" = Some (JStr name) → name ∈ base_methods →
  load_wallet cls (default JNull (data !! "xpub")) st = (r, st1) → r ≠ Hangs →
  handle_request cls (Request auth "application/json" (Some (JObj data))) st
  = reply cls (default JNull (data !! "id"))
      (invoke cls (BaseMethod name) (default JNull (data !! "xpub")) None
         (default (JArr []) (data !! "params")) st1).
Proof.
  intros Hd Hm Hn Hl Hr.
  assert (Hname : name ≠ EmptyString).
  { by destruct (base_methods_cases name Hn) as [->|[->| ->]]. }
  rewrite (handle_request_parsed cls auth data st Hd);
    [|rewrite Hm; by apply truthy_name].
  rewrite Hl, Hm. unfold is_builtin_or_custom, dispatch, resolve_method. simpl.
  rewrite !bool_decide_eq_true_2 by done. simpl.
  by destruct r.
Qed.



(** C6, as stated, fails when [params] is neither an array nor a
    mapping: the loader raises, the method is in the custom (or built-in)
    tier, and yet it is not called; [result] stays unbound and the answer
    is the -32601 error for that.  With an array the same request calls
    the handler, which leaves its file behind. *)
Lemma scalar_params_method_not_called :
  load_wallet with_echo (JStr "invalid") initial
  = (Raises (LibraryError "restore failed"), set_fresh 2 initial)
  ∧ handle_request with_echo (rpc_request "echo" (JStr "invalid") JNull) initial
    = (Returns (RpcError (-32601) "UnboundLocalError" (JNum 7)), set_fresh 2 initial)
  ∧ handle_request with_echo (rpc_request "echo" (JStr "invalid") (JArr [])) initial
    = (Returns (RpcResult (JArr [JStr "invalid"]) (JNum 7)),
       add_file "echo.log" (set_fresh 2 initial))
  ∧ handle_request with_echo (rpc_request "get_updates" (JStr "invalid") (JStr "now"))
      initial
    = (Returns (RpcError (-32601) "UnboundLocalError" (JNum 7)), set_fresh 2 initial).
Proof. repeat split; vm_compute; reflexivity. Qed.





(** C10, as stated, fails when [params] names a wallet of its own: the
    request has no [xpub], and [get_updates] is nevertheless called for
    the registered wallet [xyz], whose queue it returns and empties. *)
Lemma params_wallet_reaches_session :
  body no_xpub_request
  = Some (JObj {[ "method" := JStr "get_updates";
                  "params" := JObj {[ "wallet" := JStr "xyz" ]}; "id" := JNum 7 ]})
  ∧ wf st_two_queued
  ∧ wallets_updates st_two_queued !! KStr "xyz" = Some [block_record]
  ∧ (handle_request sample no_xpub_request st_two_queued).1
    = Returns (RpcResult (JArr [JObj block_record]) (JNum 7))
  ∧ wallets_updates (handle_request sample no_xpub_request st_two_queued).2 !! KStr "xyz"
    = Some [].
Proof.
  split; [reflexivity|]. split; [apply wf_check_sound; vm_compute; reflexivity|].
  repeat split; vm_compute; reflexivity.
Qed.

(** ** The network callback *)

Lemma deliver_registered (data : gmap string json) (K : pykey) (origin : option nat)
    (ws : gmap pykey wallet_data) (i : pykey) (cfg : wallet_config)
    (u : gmap pykey (list (gmap string json))) (q : list (gmap string json)) :
  is_Some (ws !! i) → u !! i = Some q →
  deliver data K origin ws i cfg u
  = (Returns (), if accepts K origin ws i cfg then <[i := q ++ [data]]> u else u).
Proof.
  intros [wd Hwd] Hq. unfold deliver, accepts. rewrite Hwd, Hq.
  case_bool_decide; simpl; [|done].
  destruct origin as [h|]; [|done]. by case_bool_decide.
Qed.

Lemma deliver_all_lookup (data : gmap string json) (K : pykey) (origin : option nat)
    (ws : gmap pykey wallet_data) (l : list (pykey * wallet_config))
    (u : gmap pykey (list (gmap string json))) :
  NoDup l.*1 →
  (∀ i cfg, (i, cfg) ∈ l → is_Some (ws !! i) ∧ is_Some (u !! i)) →
  ∃ u1, deliver_all data K origin ws l u = (Returns (), u1)
    ∧ ∀ i, u1 !! i
           = match (list_to_map l : gmap pykey wallet_config) !! i with
             | Some cfg =>
                 if accepts K origin ws i cfg
                 then (λ q, q ++ [data]) <$> u !! i
                 else u !! i
             | None => u !! i
             end.
Proof.
  revert u. induction l as [|[i0 cfg0] l IH]; intros u Hnd Hreg.
  { exists u. split; [done|]. intros i. simpl. by rewrite lookup_empty. }
  apply NoDup_cons in Hnd as [Hi0 Hnd].
  destruct (Hreg i0 cfg0) as [Hws [q Hq]]; [by left|].
  simpl. rewrite (deliver_registered data K origin ws i0 cfg0 u q Hws Hq).
  set (u0 := if accepts K origin ws i0 cfg0 then <[i0 := q ++ [data]]> u else u).
  assert (Hu0 : ∀ i, i ≠ i0 → u0 !! i = u !! i).
  { intros i Hi. unfold u0. destruct (accepts _ _ _ _ _); [|done].
    by rewrite lookup_insert_ne. }
  destruct (IH u0 Hnd) as (u1 & -> & Hu1).
  { intros i cfg Hin. destruct (Hreg i cfg) as [? ?]; [by right|]. split; [done|].
    rewrite Hu0; [done|]. intros ->. apply Hi0.
    by apply (list_elem_of_fmap_2 fst) in Hin. }
  exists u1. split; [done|]. intros i. rewrite Hu1.
  destruct (decide (i = i0)) as [->|Hne].
  - rewrite lookup_insert_eq.
    rewrite (not_elem_of_list_to_map_1 (M := gmap pykey) l i0 Hi0).
    unfold u0. destruct (accepts _ _ _ _ _); [|done].
    by rewrite lookup_insert_eq, Hq.
  - rewrite lookup_insert_ne by done. rewrite (Hu0 i Hne). done.
Qed.

Lemma deliver_all_unsubscribed (data : gmap string json) (K : pykey)
    (origin : option nat) (ws : gmap pykey wallet_data)
    (l : list (pykey * wallet_config)) (u : gmap pykey (list (gmap string json))) :
  (∀ i cfg, (i, cfg) ∈ l → K ∉ events cfg) →
  deliver_all data K origin ws l u = (Returns (), u).
Proof.
  induction l as [|[i0 cfg0] l IH]; intros Hl; [done|].
  simpl. unfold deliver. rewrite bool_decide_eq_false_2.
  - apply IH. intros i cfg Hin. apply (Hl i cfg). by right.
  - apply (Hl i0 cfg0). by left.
Qed.

Lemma set_wallets_updates_same (st : daemon) :
  set_wallets_updates (wallets_updates st) st = st.
Proof. by destruct st. Qed.

(** When the hook yields a payload, the callback returns, and each
    session's queue is extended exactly when the session passes the test. *)
Lemma process_events_delivers (cls : daemon_class) (event : string)
    (args : callback_args cls) (data_got : gmap string json) (origin : option nat)
    (st : daemon) :
  wf st →
  process_events cls (mapped_tag cls event) args = Returns (Some data_got, origin) →
  ∃ st1, _process_events cls event args st = (Returns (), st1)
    ∧ wallets st1 = wallets st
    ∧ wallets_config st1 = wallets_config st
    ∧ ∀ i cfg q, wallets_config st !! i = Some cfg → wallets_updates st !! i = Some q →
        wallets_updates st1 !! i
        = Some (if accepts (mapped_tag cls event) origin (wallets st) i cfg
                then q ++ [data_got ∪ {[ "event" := key_json (mapped_tag cls event) ]}]
                else q).
Proof.
  intros Hwf Hhook. unfold _process_events. rewrite Hhook.
  destruct (deliver_all_lookup
              (data_got ∪ {[ "event" := key_json (mapped_tag cls event) ]})
              (mapped_tag cls event) origin (wallets st)
              (map_to_list (wallets_config st)) (wallets_updates st))
    as (u1 & -> & Hu1).
  { apply NoDup_fst_map_to_list. }
  { intros i cfg Hin%elem_of_map_to_list. rewrite <- !elem_of_dom.
    rewrite (wf_updates st Hwf), <- (wf_config st Hwf). split; by apply elem_of_dom. }
  eexists. split; [done|]. simpl. split; [done|]. split; [done|].
  intros i cfg q Hc Hq. rewrite Hu1, list_to_map_to_list, Hc, Hq.
  by destruct (accepts _ _ _ _ _).
Qed.

(** C3: when the hook yields a payload for an event, the callback
    returns.  If the event names the wallet of session [w1], the record is
    appended to the queue of [w1] iff [w1] is subscribed to the tag, and
    the queue of every other session is left as it was, subscribed or not.
    If the event names no wallet, the record is appended to the queue of
    every session subscribed to the tag, and to no other. *)
Theorem event_delivery (cls : daemon_class) (event : string) (args : callback_args cls)
    (data_got : gmap string json) (origin : option nat) (st : daemon) :
  wf st →
  process_events cls (mapped_tag cls event) args = Returns (Some data_got, origin) →
  ∃ st1, _process_events cls event args st = (Returns (), st1)
    ∧ (∀ w1 d1 cfg1 q1,
         wallets st !! w1 = Some d1 → wallets_config st !! w1 = Some cfg1 →
         wallets_updates st !! w1 = Some q1 → origin = Some (wd_wallet d1) →
         wallets_updates st1 !! w1
         = Some (if bool_decide (mapped_tag cls event ∈ events cfg1)
                 then q1 ++ [data_got ∪ {[ "event" := key_json (mapped_tag cls event) ]}]
                 else q1)
         ∧ ∀ w2 q2, w2 ≠ w1 → wallets_updates st !! w2 = Some q2 →
             wallets_updates st1 !! w2 = Some q2)
    ∧ (origin = None →
       ∀ w cfg q, wallets_config st !! w = Some cfg → wallets_updates st !! w = Some q →
         wallets_updates st1 !! w
         = Some (if bool_decide (mapped_tag cls event ∈ events cfg)
                 then q ++ [data_got ∪ {[ "event" := key_json (mapped_tag cls event) ]}]
                 else q)).
Proof.
  intros Hwf Hhook.
  destruct (process_events_delivers cls event args data_got origin st Hwf Hhook)
    as (st1 & Hrun & _ & _ & Hq).
  exists st1. split; [done|]. split.
  - intros w1 d1 cfg1 q1 Hd1 Hc1 Hq1 ->. split.
    + rewrite (Hq w1 cfg1 q1 Hc1 Hq1). unfold accepts. rewrite Hd1.
      rewrite (bool_decide_eq_true_2 (wd_wallet d1 = wd_wallet d1)) by done.
      by rewrite andb_true_r.
    + intros w2 q2 Hne Hq2.
      assert (Hin : w2 ∈ dom (wallets st)).
      { rewrite <- (wf_updates st Hwf). by apply elem_of_dom. }
      pose proof Hin as [d2 Hd2]%elem_of_dom.
      rewrite <- (wf_config st Hwf) in Hin. apply elem_of_dom in Hin as [cfg2 Hc2].
      rewrite (Hq w2 cfg2 q2 Hc2 Hq2). unfold accepts. rewrite Hd2.
      rewrite (bool_decide_eq_false_2 (wd_wallet d1 = wd_wallet d2)).
      * by rewrite andb_false_r.
      * intros Heq. apply Hne. symmetry. by apply (wf_inj st Hwf w1 w2 d1 d2).
  - intros -> w cfg q Hc Hq0. rewrite (Hq w cfg q Hc Hq0). unfold accepts.
    by rewrite andb_true_r.
Qed.

Lemma event_delivery_witness :
  wf st_two
  ∧ wallets st_two !! KStr "abc" = Some (WalletData 2 1 0)
  ∧ ∃ st1,
      _process_events sample "blockchain_updated" (Some block_payload, Some 2) st_two
      = (Returns (), st1)
      ∧ wallets_updates st1 !! KStr "abc" = Some [block_record]
      ∧ wallets_updates st1 !! KStr "xyz" = Some [].
Proof.
  assert (Hwf : wf st_two) by (apply wf_check_sound; vm_compute; reflexivity).
  assert (Hd : wallets st_two !! KStr "abc" = Some (WalletData 2 1 0))
    by (vm_compute; reflexivity).
  split; [exact Hwf|]. split; [exact Hd|].
  destruct (event_delivery sample "blockchain_updated" (Some block_payload, Some 2)
              block_payload (Some 2) st_two Hwf eq_refl)
    as (st1 & Hrun & Hone & _).
  exists st1. split; [exact Hrun|].
  assert (Hc : wallets_config st_two !! KStr "abc"
               = Some (WalletConfig {[ KStr "new_block" ]}))
    by (vm_compute; reflexivity).
  assert (Hq : wallets_updates st_two !! KStr "abc" = Some [])
    by (vm_compute; reflexivity).
  destruct (Hone (KStr "abc") (WalletData 2 1 0) _ [] Hd Hc Hq eq_refl) as [H1 H2].
  split.
  - rewrite H1. vm_compute. reflexivity.
  - apply (H2 (KStr "xyz") []); [discriminate|vm_compute; reflexivity].
Defined.

(** C5, as stated, fails: an event whose kind is not in the mapping is
    handed to the hook with the tag [None], and a session whose
    subscription set holds [None] (after [subscribe] with [[null]]) has the
    record appended to its queue. *)
Lemma unmapped_event_is_queued :
  EVENT_MAPPING sample !! "verified" = None
  ∧ (events <$> wallets_config st_abc_null !! KStr "abc") = Some {[ KNone ]}
  ∧ wallets_updates st_abc_null !! KStr "abc" = Some []
  ∧ wallets_updates
      (_process_events sample "verified" (Some block_payload, None) st_abc_null).2
      !! KStr "abc"
    = Some [ {[ "height" := JNum 5; "event" := JNull ]} ].
Proof. repeat split; vm_compute; reflexivity. Qed.

(** C5, as the code has it: an event whose kind is not in the mapping
    reaches the hook with the tag [None]; it changes no queue, and nothing
    else, when the hook yields no payload for it or when no session's
    subscription set holds [None]. *)
Theorem unmapped_event_dropped (cls : daemon_class) (event : string)
    (args : callback_args cls) (st : daemon) :
  EVENT_MAPPING cls !! event = None →
  (∀ p o, process_events cls KNone args ≠ Returns (Some p, o))
  ∨ map_Forall (λ _ cfg, KNone ∉ events cfg) (wallets_config st) →
  _process_events cls event args st
  = (match process_events cls KNone args with
     | Hangs => Hangs
     | _ => Returns ()
     end, st).
Proof.
  intros Hm Hor. unfold _process_events, mapped_tag. rewrite Hm.
  destruct (process_events cls KNone args) as [[[p|] o]| |] eqn:Hhook; try done.
  destruct Hor as [Hno|Hall]; [by destruct (Hno p o)|].
  rewrite deliver_all_unsubscribed.
  - by rewrite set_wallets_updates_same.
  - intros i cfg Hin%elem_of_map_to_list. by apply (Hall i cfg).
Qed.

Lemma unmapped_event_dropped_witness :
  EVENT_MAPPING sample !! "verified" = None
  ∧ _process_events sample "verified" (Some block_payload, None) st_two_queued
    = (Returns (), st_two_queued).
Proof.
  assert (Hm : EVENT_MAPPING sample !! "verified" = None) by (vm_compute; reflexivity).
  split; [exact Hm|].
  apply (unmapped_event_dropped sample "verified" (Some block_payload, None)
           st_two_queued Hm).
  right.
  apply (bool_decide_unpack
           (map_Forall (λ _ cfg, KNone ∉ events cfg) (wallets_config st_two_queued))).
  vm_compute. exact I.
Defined.

(** ** The invariant is kept *)

Lemma dom_insert_present {A} (m : gmap pykey A) (k : pykey) (x y : A) :
  m !! k = Some x → dom (<[k := y]> m) = dom m.
Proof.
  intros Hk. rewrite dom_insert_L. apply (elem_of_dom_2 m) in Hk.
  apply subseteq_union_1_L. by apply singleton_subseteq_l.
Qed.

Lemma wf_same_wallets (st st1 : daemon) :
  wallets st1 = wallets st → fresh st1 = fresh st →
  dom (wallets_config st1) = dom (wallets_config st) →
  dom (wallets_updates st1) = dom (wallets_updates st) →
  wf st → wf st1.
Proof.
  intros Hw Hf Hc Hu [Hc0 Hu0 Hk0 Hf0 Hi0].
  split; rewrite ?Hw, ?Hf, ?Hc, ?Hu; done.
Qed.

Lemma get_updates_wf (w : json) (st st1 : daemon) (r : outcome (list (gmap string json))) :
  get_updates w st = (r, st1) → wf st → wf st1.
Proof.
  unfold get_updates, dict_getitem. intros H.
  destruct (py_hash w) as [k| |]; simpl in H; simplify_eq; try done.
  destruct (wallets_updates st !! k) as [q|] eqn:Hq; simplify_eq; [|done].
  apply wf_same_wallets; try done. simpl. by eapply dom_insert_present.
Qed.

Lemma subscribe_wf (ev w : json) (st st1 : daemon) (r : outcome unit) :
  subscribe ev w st = (r, st1) → wf st → wf st1.
Proof.
  unfold subscribe, dict_getitem. intros H.
  destruct (py_hash w) as [k| |]; simpl in H; simplify_eq; try done.
  destruct (wallets_config st !! k) as [cfg|] eqn:Hc; simplify_eq; [|done].
  destruct (py_iter ev) as [items| |]; simplify_eq; try done.
  destruct (set_update (events cfg) items) as [r0 s0]. simplify_eq.
  apply wf_same_wallets; try done. simpl. by eapply dom_insert_present.
Qed.

Lemma unsubscribe_wf (m : gmap string string) (ev w : json) (st st1 : daemon)
    (r : outcome unit) :
  unsubscribe m ev w st = (r, st1) → wf st → wf st1.
Proof.
  unfold unsubscribe, dict_getitem. intros H.
  destruct (py_hash w) as [k| |]; simpl in H; simplify_eq; try done.
  destruct (wallets_config st !! k) as [cfg|] eqn:Hc; simplify_eq; [|done].
  destruct (filter_not_in _ _) as [kept| |]; simplify_eq; try done.
  apply wf_same_wallets; try done. simpl. by eapply dom_insert_present.
Qed.

Lemma deliver_all_dom (data : gmap string json) (K : pykey) (origin : option nat)
    (ws : gmap pykey wallet_data) (l : list (pykey * wallet_config))
    (u u1 : gmap pykey (list (gmap string json))) (r : outcome unit) :
  deliver_all data K origin ws l u = (r, u1) → dom u1 = dom u.
Proof.
  revert u. induction l as [|[i cfg] l IH]; intros u H; simpl in H; [by simplify_eq|].
  destruct (deliver data K origin ws i cfg u) as [r0 u0] eqn:Hd.
  assert (Hu0 : dom u0 = dom u).
  { unfold deliver in Hd.
    repeat case_match; simplify_eq; try done; by eapply dom_insert_present. }
  destruct r0; simplify_eq; try done. rewrite <- Hu0. by eapply IH.
Qed.

Lemma process_events_wf (cls : daemon_class) (event : string) (args : callback_args cls)
    (st st1 : daemon) (r : outcome unit) :
  _process_events cls event args st = (r, st1) → wf st → wf st1.
Proof.
  unfold _process_events. intros H.
  destruct (process_events cls _ args) as [[[p|] o]| |]; simplify_eq; try done.
  destruct (deliver_all _ _ _ _ _ _) as [r0 u1] eqn:Hd. simplify_eq.
  apply wf_same_wallets; try done. simpl. by eapply deliver_all_dom.
Qed.

(** ** Interleaved loads keep the invariant *)

Lemma wf_grow (st st2 : daemon) :
  wf st → same_maps st2 st → fresh st ≤ fresh st2 → wf st2.
Proof.
  intros [Hc Hu Hk Hf Hi] (Hw2 & Hc2 & Hu2) Hle.
  split; rewrite ?Hw2, ?Hc2, ?Hu2; try done.
  intros i d Hd. specialize (Hf i d Hd). lia.
Qed.

Lemma wf_register (st : daemon) (s : string) (w c cf : nat) :
  wf st → s ≠ EmptyString → w < fresh st →
  (∀ k d, wallets st !! k = Some d → wd_wallet d ≠ w) →
  wf (register (KStr s) w c cf st).
Proof.
  intros [Hc Hu Hk Hf Hi] Hs Hw Hnew. split; simpl.
  - by rewrite !dom_insert_L, Hc.
  - by rewrite !dom_insert_L, Hu.
  - intros i d [[<- <-]|[_ Hd]]%lookup_insert_Some; [by exists s|by eapply Hk].
  - intros i d [[<- <-]|[_ Hd]]%lookup_insert_Some; [done|by eapply Hf].
  - intros i j di dj [[<- <-]|[? Hdi]]%lookup_insert_Some
      [[<- <-]|[? Hdj]]%lookup_insert_Some Heq; simpl in *; try done.
    + by destruct (Hnew j dj Hdj).
    + by destruct (Hnew i di Hdi).
    + by eapply Hi.
Qed.

Lemma poll_cases (s : string) (w c cf : nat) (rem : option nat) (st st1 : daemon)
    (t1 : task) :
  poll s w c cf rem st = (t1, st1) →
  (t1 = TDone (Returns (Loaded (Some w) c cf)) ∧ st1 = register (KStr s) w c cf st)
  ∨ (∃ rem', t1 = TPolling s w c cf rem' ∧ st1 = st).
Proof.
  unfold poll. intros H. destruct rem as [[|n]|]; simplify_eq; eauto.
Qed.

Lemma task_step_start_cases (cls : daemon_class) (xpub : json) (st st1 : daemon)
    (t1 : task) :
  task_step cls (TStart xpub) st = (t1, st1) →
  (same_maps st1 st ∧ fresh st ≤ fresh st1 ∧ ∃ r, t1 = TDone r)
  ∨ (∃ s w c cf rem st2,
       s ≠ EmptyString ∧ same_maps st2 st ∧ fresh st ≤ w < fresh st2
       ∧ poll s w c cf rem st2 = (t1, st1)).
Proof.
  simpl. intros H.
  destruct (py_hash xpub) as [k| |] eqn:Hh; simplify_eq;
    [|left; repeat split; eauto..].
  destruct (wallets st !! k) as [d|] eqn:Hk; simplify_eq;
    [left; repeat split; eauto|].
  destruct (truthy xpub) eqn:Ht; simpl in H; simplify_eq;
    [|left; repeat split; simpl; eauto].
  destruct xpub as [|b|n|s| |]; simplify_eq;
    try (left; repeat split; simpl; by eauto).
  destruct (open_wallet cls s _) as [ro st2] eqn:Ho.
  apply open_wallet_spec in Ho as (Hsame & Hf & Hr). simpl in *.
  destruct ro as [w| |]; simplify_eq;
    try (left; split; [done|]; split; [lia|]; by eauto).
  right. exists s, w, (S (fresh st)), (fresh st), (sync_polls cls s), st2.
  specialize (Hr w eq_refl). split; [|split; [done|split; [lia|done]]].
  intros ->. done.
Qed.

Lemma holds_insert (ts : list task) (i j : nat) (t1 : task) (s : string) (w : nat) :
  holds (<[i := t1]> ts) j s w →
  (j ≠ i ∧ holds ts j s w) ∨ (j = i ∧ ∃ c cf rem, t1 = TPolling s w c cf rem).
Proof.
  intros (c & cf & rem & [(-> & -> & _)|[? H]]%list_lookup_insert_Some).
  - right. by eauto.
  - left. split; [done|]. by exists c, cf, rem.
Qed.

(** A task that has ended or is replaced by an ended task holds nothing,
    and the state grows. *)
Lemma pool_ok_done (ts : list task) (i : nat) (r : outcome loaded) (st st1 : daemon) :
  pool_ok ts st → same_maps st1 st → fresh st ≤ fresh st1 →
  pool_ok (<[i := TDone r]> ts) st1.
Proof.
  intros [Hwf Hts] Hsame Hle. split; [by eapply wf_grow|].
  intros j s w [[Hne Hj]|[_ (? & ? & ? & ?)]]%holds_insert; [|done].
  destruct (Hts j s w Hj) as (Hs & Hw & Hreg & Hoth).
  destruct Hsame as (Hw1 & _). rewrite Hw1.
  split; [done|]. split; [lia|]. split; [done|].
  intros j' s' w' Hne' [[_ Hj']|[_ (? & ? & ? & ?)]]%holds_insert; [|done].
  by eapply Hoth.
Qed.

(** The outcome of a test of [is_up_to_date()] by task [i], whose wallet
    [w] nobody else holds. *)
Lemma pool_ok_poll (ts : list task) (i : nat) (s : string) (w c cf : nat)
    (rem : option nat) (st st1 : daemon) (t1 : task) :
  wf st → s ≠ EmptyString → w < fresh st →
  (∀ k d, wallets st !! k = Some d → wd_wallet d ≠ w) →
  (∀ j s' w', j ≠ i → holds ts j s' w' →
     s' ≠ EmptyString ∧ w' < fresh st ∧ w' ≠ w
     ∧ (∀ k d, wallets st !! k = Some d → wd_wallet d ≠ w')
     ∧ ∀ j' s'' w'', j' ≠ j → j' ≠ i → holds ts j' s'' w'' → w'' ≠ w') →
  poll s w c cf rem st = (t1, st1) →
  pool_ok (<[i := t1]> ts) st1.
Proof.
  intros Hwf Hs Hw Hreg Hoth [[-> ->]|(rem' & -> & ->)]%poll_cases.
  - split; [by apply wf_register|].
    intros j s' w' [[Hne Hj]|[_ (? & ? & ? & ?)]]%holds_insert; [|done].
    destruct (Hoth j s' w' Hne Hj) as (Hs' & Hw' & Hww & Hreg' & Hpair).
    split; [done|]. split; [done|]. split.
    + intros k d Hd. simpl in Hd.
      apply lookup_insert_Some in Hd as [[<- <-]|[_ Hd]]; simpl; [done|by eapply Hreg'].
    + intros j' s'' w'' Hne' [[Hni Hj']|[_ (? & ? & ? & ?)]]%holds_insert; [|done].
      by eapply Hpair.
  - split; [done|].
    intros j s' w' [[Hne Hj]|[-> (? & ? & ? & ?)]]%holds_insert.
    + destruct (Hoth j s' w' Hne Hj) as (Hs' & Hw' & Hww & Hreg' & Hpair).
      split; [done|]. split; [done|]. split; [done|].
      intros j' s'' w'' Hne' [[Hni Hj']|[-> (? & ? & ? & ?)]]%holds_insert.
      * by eapply Hpair.
      * simplify_eq. done.
    + simplify_eq. split; [done|]. split; [done|]. split; [done|].
      intros j' s'' w'' Hne' [[Hni Hj']|[? _]]%holds_insert; [|done].
      by destruct (Hoth j' s'' w'' Hni Hj') as (_ & _ & ? & _).
Qed.

Lemma task_step_pool_ok (cls : daemon_class) (ts : list task) (i : nat) (t t1 : task)
    (st st1 : daemon) :
  pool_ok ts st → ts !! i = Some t → task_step cls t st = (t1, st1) →
  pool_ok (<[i := t1]> ts) st1.
Proof.
  intros Hpool Hi Hstep. pose proof Hpool as [Hwf Hts].
  destruct t as [xpub|s w c cf rem|r].
  - apply task_step_start_cases in Hstep
      as [(Hsame & Hle & r & ->)|(s & w & c & cf & rem & st2 & Hs & Hsame & Hw & Hpoll)].
    { by apply (pool_ok_done ts i r st st1). }
    pose proof Hsame as (Hw2 & _).
    apply (pool_ok_poll ts i s w c cf rem st2 st1 t1); try done.
    + apply (wf_grow st st2); [done|done|lia].
    + lia.
    + rewrite Hw2. intros k d Hd. pose proof (wf_fresh st Hwf k d Hd). lia.
    + intros j s' w' Hne Hj. destruct (Hts j s' w' Hj) as (Hs' & Hw' & Hreg' & Hpair).
      rewrite Hw2. split; [done|]. split; [lia|]. split; [lia|]. split; [done|].
      intros j' s'' w'' Hne' _ Hj'. by eapply Hpair.
  - simpl in Hstep.
    assert (Hh : holds ts i s w) by (by exists c, cf, rem).
    destruct (Hts i s w Hh) as (Hs & Hw & Hreg & Hoth).
    apply (pool_ok_poll ts i s w c cf rem st st1 t1); try done.
    intros j s' w' Hne Hj. destruct (Hts j s' w' Hj) as (Hs' & Hw' & Hreg' & Hpair).
    split; [done|]. split; [done|]. split; [by eapply Hoth|]. split; [done|].
    intros j' s'' w'' Hne' _ Hj'. by eapply Hpair.
  - simpl in Hstep. simplify_eq. by rewrite list_insert_id.
Qed.

(** Every interleaving of loads keeps the registry invariant. *)
Lemma run_schedule_pool_ok (cls : daemon_class) (schedule : list nat) (ts ts1 : list task)
    (st st1 : daemon) :
  pool_ok ts st → run_schedule cls schedule ts st = (ts1, st1) → pool_ok ts1 st1.
Proof.
  revert ts st. induction schedule as [|i rest IH]; intros ts st Hpool H; simpl in H.
  { by simplify_eq. }
  destruct (ts !! i) as [t|] eqn:Hi; [|by eapply IH].
  destruct (task_step cls t st) as [t1 st2] eqn:Hstep.
  eapply IH; [|done]. by eapply task_step_pool_ok.
Qed.

Lemma pool_ok_start (xpubs : list json) (st : daemon) :
  wf st → pool_ok (TStart <$> xpubs) st.
Proof.
  intros Hwf. split; [done|]. intros i s w (c & cf & rem & H).
  rewrite list_lookup_fmap in H. by destruct (xpubs !! i).
Qed.

(** X24: Loads that start in a state satisfying the registry invariant and are
    interleaved in any way, overlapping loads of one identifier included,
    leave a state that satisfies it. *)
Lemma run_schedule_wf (cls : daemon_class) (schedule : list nat) (xpubs : list json)
    (ts1 : list task) (st st1 : daemon) :
  wf st → run_schedule cls schedule (TStart <$> xpubs) st = (ts1, st1) → wf st1.
Proof.
  intros Hwf H. by destruct (run_schedule_pool_ok cls schedule _ ts1 st st1
                               (pool_ok_start xpubs st Hwf) H).
Qed.

(** ** Requests, path by path *)



(** X2: An authenticated request whose content type is not
    [application/json] is refused with code -32600 and a null id; the body
    is not parsed and nothing changes. *)
Theorem other_content_type_refused (cls : daemon_class) (auth : option string)
    (ct : string) (b : option json) (st : daemon) :
  decode_auth cls auth = Returns (Some (LOGIN cls), Some (PASSWORD cls)) →
  ct ≠ "application/json" →
  handle_request cls (Request auth ct b) st
  = (Returns (RpcError (-32600) "Invalid JSON-RPC." JNull), st).
Proof.
  intros Hd Hct. rewrite (handle_request_authenticated _ _ _ _ _ Hd).
  unfold handle_authenticated. simpl.
  by rewrite (proj2 (String.eqb_neq ct "application/json") Hct).
Qed.

Lemma other_content_type_refused_witness :
  handle_request sample
    (Request good_auth "text/plain" (Some (rpc_body "get_updates" (JStr "abc") (JArr []))))
    st_two_queued
  = (Returns (RpcError (-32600) "Invalid JSON-RPC." JNull), st_two_queued).
Proof.
  apply (other_content_type_refused sample good_auth "text/plain").
  - vm_compute; reflexivity.
  - discriminate.
Defined.

(** X3: A request without a method, or with a method that is null, empty,
    zero or false, is answered with [Procedure not found.] under its own
    id, and the wallet it names is not loaded. *)
Theorem missing_method_not_found (cls : daemon_class) (auth : option string)
    (data : gmap string json) (st : daemon) :
  decode_auth cls auth = Returns (Some (LOGIN cls), Some (PASSWORD cls)) →
  truthy (default JNull (data !! "method")) = false →
  handle_request cls (Request auth "application/json" (Some (JObj data))) st
  = (Returns (RpcError (-32601) "Procedure not found." (default JNull (data !! "id"))), st).
Proof.
  intros Hd Ht. rewrite (handle_request_authenticated _ _ _ _ _ Hd).
  unfold handle_authenticated. simpl. by rewrite Ht.
Qed.

Lemma missing_method_not_found_witness :
  handle_request sample
    (Request good_auth "application/json"
       (Some (JObj {[ "xpub" := JStr "abc"; "id" := JStr "r1" ]}))) initial
  = (Returns (RpcError (-32601) "Procedure not found." (JStr "r1")), initial).
Proof.
  exact (missing_method_not_found sample good_auth
           {[ "xpub" := JStr "abc"; "id" := JStr "r1" ]} initial
           ltac:(vm_compute; reflexivity) ltac:(vm_compute; reflexivity)).
Defined.

(** X4: A request for a method that no tier knows is answered with
    [Procedure not found.] only after its wallet was loaded: the state of
    the answer is the loader's, session included. *)
Theorem unknown_method_loads_wallet (cls : daemon_class) (auth : option string)
    (data : gmap string json) (name : string) (l : loaded) (st st1 : daemon) :
  decode_auth cls auth = Returns (Some (LOGIN cls), Some (PASSWORD cls)) →
  data !! "method" = Some (JStr name) → name ≠ EmptyString →
  name ∉ base_methods → supported_methods cls !! name = None →
  name ∉ command_attrs cls →
  load_wallet cls (default JNull (data !! "xpub")) st = (Returns l, st1) →
  handle_request cls (Request auth "application/json" (Some (JObj data))) st
  = (Returns (RpcError (-32601) "Procedure not found." (default JNull (data !! "id"))), st1).
Proof.
  intros Hd Hm Hn Hb Hs Hc Hl.
  rewrite (handle_request_parsed cls auth data st Hd);
    [|rewrite Hm; by apply truthy_name].
  rewrite Hl, Hm. unfold dispatch, resolve_method. simpl.
  rewrite !bool_decide_eq_false_2 by done. by rewrite Hs.
Qed.

Lemma unknown_method_loads_wallet_witness :
  wallets initial !! KStr "abc" = None
  ∧ ∃ st1,
      handle_request sample (rpc_request "nope" (JStr "abc") (JArr [])) initial
      = (Returns (RpcError (-32601) "Procedure not found." (JNum 7)), st1)
      ∧ wallets st1 !! KStr "abc" = Some (WalletData 2 1 0).
Proof.
  split; [vm_compute; reflexivity|]. exists st_abc. split.
  - exact (unknown_method_loads_wallet sample good_auth
             {[ "method" := JStr "nope"; "xpub" := JStr "abc";
                "params" := JArr []; "id" := JNum 7 ]}
             "nope" (Loaded (Some 2) 1 0) initial st_abc
             ltac:(vm_compute; reflexivity) ltac:(vm_compute; reflexivity)
             ltac:(discriminate)
             ltac:(intros H; vm_compute in H; discriminate H)
             ltac:(vm_compute; reflexivity)
             ltac:(intros H; vm_compute in H; discriminate H)
             ltac:(vm_compute; reflexivity)).
  - vm_compute; reflexivity.
Defined.

(** X5: [params] that is neither an array nor a mapping (a null, a string, a
    number) leaves [result] unbound: the built-in is not called, and the
    answer is the -32601 error for that. *)
Theorem scalar_params_rejected (cls : daemon_class) (auth : option string)
    (data : gmap string json) (name : string) (r : outcome loaded) (st st1 : daemon) :
  decode_auth cls auth = Returns (Some (LOGIN cls), Some (PASSWORD cls)) →
  data !! "method" = Some (JStr name) → name ∈ base_methods →
  load_wallet cls (default JNull (data !! "xpub")) st = (r, st1) → r ≠ Hangs →
  (∀ l, data !! "params" ≠ Some (JArr l)) →
  (∀ kv, data !! "params" ≠ Some (JObj kv)) →
  is_Some (data !! "params") →
  handle_request cls (Request auth "application/json" (Some (JObj data))) st
  = (Returns (RpcError (-32601) (format_exc_last_line cls (UnboundLocalError "result"))
                (default JNull (data !! "id"))), st1).
Proof.
  intros Hd Hm Hn Hl Hr Harr Hobj [p Hp].
  rewrite (builtin_request_invoke cls auth data name r st st1 Hd Hm Hn Hl Hr).
  rewrite Hp in *. simpl. unfold invoke.
  destruct p; try done.
  - by destruct (Harr l).
  - by destruct (Hobj kv).
Qed.

Lemma scalar_params_rejected_witness :
  handle_request sample (rpc_request "get_updates" (JStr "abc") JNull) st_two_queued
  = (Returns (RpcError (-32601) "UnboundLocalError" (JNum 7)), st_two_queued).
Proof.
  exact (scalar_params_rejected sample good_auth
           {[ "method" := JStr "get_updates"; "xpub" := JStr "abc";
              "params" := JNull; "id" := JNum 7 ]}
           "get_updates" (Returns (Loaded (Some 2) 1 0)) st_two_queued st_two_queued
           ltac:(vm_compute; reflexivity) ltac:(vm_compute; reflexivity)
           ltac:(vm_compute; reflexivity) ltac:(vm_compute; reflexivity)
           ltac:(discriminate)
           ltac:(intros l H; vm_compute in H; discriminate H)
           ltac:(intros kv H; vm_compute in H; discriminate H)
           ltac:(eexists; vm_compute; reflexivity)).
Defined.

(** X6: A [wallet] entry in a [params] mapping replaces the request's [xpub]:
    [get_updates] returns and empties the queue of the wallet that
    [params] names. *)
Theorem params_wallet_replaces_xpub (cls : daemon_class) (auth : option string)
    (data : gmap string json) (other : json) (k : pykey)
    (q : list (gmap string json)) (r : outcome loaded) (st st1 : daemon) :
  decode_auth cls auth = Returns (Some (LOGIN cls), Some (PASSWORD cls)) →
  data !! "method" = Some (JStr "get_updates") →
  data !! "params" = Some (JObj {[ "wallet" := other ]}) →
  load_wallet cls (default JNull (data !! "xpub")) st = (r, st1) → r ≠ Hangs →
  py_hash other = Returns k → wallets_updates st1 !! k = Some q →
  handle_request cls (Request auth "application/json" (Some (JObj data))) st
  = (Returns (RpcResult (JArr (record_json <$> q)) (default JNull (data !! "id"))),
     set_wallets_updates (<[k := []]> (wallets_updates st1)) st1).
Proof.
  intros Hd Hm Hp Hl Hr Hh Hq.
  rewrite (builtin_request_invoke cls auth data "get_updates" r st st1 Hd Hm
             ltac:(vm_compute; reflexivity) Hl Hr).
  rewrite Hp. simpl. unfold invoke, call_base_method. simpl.
  assert (Hb : bind_args ["wallet"] []
                 ({[ "wallet" := other ]} ∪ {[ "wallet" := default JNull (data !! "xpub") ]})
               = Returns {[ "wallet" := other ]}).
  { unfold bind_args. simpl.
    assert (Hu : ({[ "wallet" := other ]} : gmap string json)
                 ∪ {[ "wallet" := default JNull (data !! "xpub") ]}
                 = {[ "wallet" := other ]}).
    { apply map_eq. intros i. rewrite lookup_union.
      destruct (decide (i = "wallet")) as [->|Hne].
      - by rewrite !lookup_singleton_eq.
      - by rewrite !lookup_singleton_ne. }
    rewrite Hu, dom_singleton_L, dom_empty_L.
    rewrite (bool_decide_eq_true_2 (_ ⊆ _)) by set_solver.
    rewrite (bool_decide_eq_true_2 (_ ## _)) by set_solver.
    simpl. by rewrite (left_id_L ∅ (∪)). }
  rewrite Hb. rewrite lookup_singleton_eq.
  unfold get_updates, dict_getitem. rewrite Hh. simpl. by rewrite Hq.
Qed.

Lemma params_wallet_replaces_xpub_witness :
  wallets_updates st_two_queued !! KStr "xyz" = Some [block_record]
  ∧ ∃ st1,
      handle_request sample
        (rpc_request "get_updates" (JStr "abc") (JObj {[ "wallet" := JStr "xyz" ]}))
        st_two_queued
      = (Returns (RpcResult (JArr [JObj block_record]) (JNum 7)), st1)
      ∧ wallets_updates st1 !! KStr "xyz" = Some []
      ∧ wallets_updates st1 !! KStr "abc" = Some [block_record].
Proof.
  assert (Hq : wallets_updates st_two_queued !! KStr "xyz" = Some [block_record])
    by (vm_compute; reflexivity).
  split; [exact Hq|]. eexists. split.
  - exact (params_wallet_replaces_xpub sample good_auth
             {[ "method" := JStr "get_updates"; "xpub" := JStr "abc";
                "params" := JObj {[ "wallet" := JStr "xyz" ]}; "id" := JNum 7 ]}
             (JStr "xyz") (KStr "xyz") [block_record] (Returns (Loaded (Some 2) 1 0))
             st_two_queued st_two_queued
             ltac:(vm_compute; reflexivity) ltac:(vm_compute; reflexivity)
             ltac:(vm_compute; reflexivity) ltac:(vm_compute; reflexivity)
             ltac:(discriminate) eq_refl Hq).
  - split; vm_compute; reflexivity.
Defined.

(** ** Responses *)

Lemma reply_response (cls : daemon_class) (id : json) (x : outcome json * daemon)
    (resp : response) (st1 : daemon) :
  reply cls id x = (Returns resp, st1) →
  response_id resp = id ∧ ∀ c m i, resp = RpcError c m i → c = (-32601)%Z.
Proof.
  unfold reply, respond. destruct x as [[v|e|] st0]; intros H; simplify_eq; simpl.
  - split; [done|]. intros c m i H. discriminate H.
  - split; [done|]. by intros c m i [= <- _ _].
Qed.

Lemma dispatch_response (cls : daemon_class) (method id xpub params : json)
    (wallet : option nat) (resp : response) (st st1 : daemon) :
  dispatch cls method id xpub params wallet st = (Returns resp, st1) →
  response_id resp = id ∧ ∀ c m i, resp = RpcError c m i → c = (-32601)%Z.
Proof.
  unfold dispatch, respond. intros H.
  destruct (resolve_method cls method) as [[m|]| |]; simplify_eq.
  - by eapply reply_response.
  - split; [done|]. by intros c m i [= <- _ _].
Qed.

Lemma handle_authenticated_response (cls : daemon_class) (r : request)
    (resp : response) (st st1 : daemon) :
  handle_authenticated cls r st = (Returns resp, st1) →
  (resp = RpcError (-32600) "Invalid JSON-RPC." JNull ∧ st1 = st
   ∧ content_type r ≠ "application/json")
  ∨ (∃ data, body r = Some (JObj data)
       ∧ response_id resp = default JNull (data !! "id")
       ∧ ∀ c m i, resp = RpcError c m i → c = (-32601)%Z).
Proof.
  unfold handle_authenticated, respond. intros H.
  destruct (String.eqb (content_type r) "application/json") eqn:Hct;
    [|left; simplify_eq; split; [done|split; [done|]]; by apply String.eqb_neq].
  right. destruct (body r) as [[| | | | |data]|]; simplify_eq.
  exists data. split; [done|].
  destruct (negb (truthy _)); simplify_eq.
  { split; [done|]. by intros c m i [= <- _ _]. }
  destruct (load_wallet cls _ st) as [[l|e|] st2]; simplify_eq.
  - by eapply dispatch_response.
  - destruct (is_builtin_or_custom cls _) as [[|]| |]; simplify_eq.
    + by eapply dispatch_response.
    + split; [done|]. by intros c m i [= <- _ _].
Qed.

(** X7: The two error codes: -32600 comes with a null id and an untouched
    state (bad credentials, wrong content type); every other error is
    -32601. *)
Theorem error_codes (cls : daemon_class) (r : request) (c : Z) (m : string) (i : json)
    (st st1 : daemon) :
  handle_request cls r st = (Returns (RpcError c m i), st1) →
  (c = (-32600)%Z ∧ i = JNull ∧ st1 = st) ∨ c = (-32601)%Z.
Proof.
  unfold handle_request, respond. intros H.
  destruct (decode_auth cls (authorization r)) as [[u p]| |]; simplify_eq.
  destruct (_ && _); [|left; by simplify_eq].
  apply handle_authenticated_response in H as [(H & -> & _)|(data & _ & _ & H)].
  - left. by simplify_eq.
  - right. by eapply H.
Qed.

Lemma error_codes_witness :
  (handle_request sample (rpc_request "nope" (JStr "invalid") (JArr [])) initial).1
  = Returns (RpcError (-32601) "Error loading wallet" (JNum 7)).
Proof.
  assert (H : ∃ st1, handle_request sample
                (rpc_request "nope" (JStr "invalid") (JArr [])) initial
              = (Returns (RpcError (-32601) "Error loading wallet" (JNum 7)), st1))
    by (eexists; vm_compute; reflexivity).
  destruct H as [st1 H].
  destruct (error_codes sample _ _ _ _ _ _ H) as [(Hc & _)|_]; [discriminate Hc|].
  by rewrite H.
Defined.

(** X8: Every response to an authenticated JSON request carries the [id] of
    the request, null when it has none. *)
Theorem response_echoes_id (cls : daemon_class) (auth : option string)
    (data : gmap string json) (resp : response) (st st1 : daemon) :
  decode_auth cls auth = Returns (Some (LOGIN cls), Some (PASSWORD cls)) →
  handle_request cls (Request auth "application/json" (Some (JObj data))) st
  = (Returns resp, st1) →
  response_id resp = default JNull (data !! "id").
Proof.
  intros Hd. rewrite (handle_request_authenticated _ _ _ _ _ Hd). intros H.
  apply handle_authenticated_response in H as [(_ & _ & H)|(data' & Hb & H & _)].
  - by destruct H.
  - simpl in Hb. by simplify_eq.
Qed.

Lemma response_echoes_id_witness :
  ∃ resp st1,
    handle_request sample (rpc_request "get_updates" (JStr "abc") (JArr [])) st_two_queued
    = (Returns resp, st1)
    ∧ response_id resp = JNum 7.
Proof.
  exists (RpcResult (JArr [JObj block_record]) (JNum 7)),
    (handle_request sample (rpc_request "get_updates" (JStr "abc") (JArr []))
       st_two_queued).2.
  assert (H : handle_request sample (rpc_request "get_updates" (JStr "abc") (JArr []))
                st_two_queued
              = (Returns (RpcResult (JArr [JObj block_record]) (JNum 7)),
                 (handle_request sample (rpc_request "get_updates" (JStr "abc") (JArr []))
                    st_two_queued).2))
    by (vm_compute; reflexivity).
  split; [exact H|].
  exact (response_echoes_id sample good_auth
           {[ "method" := JStr "get_updates"; "xpub" := JStr "abc";
              "params" := JArr []; "id" := JNum 7 ]}
           _ st_two_queued _ ltac:(vm_compute; reflexivity) H).
Defined.

(** X9: A request naming an unseen wallet that the library never reports as
    synchronized gets no response at all, whatever method it names, and
    no session is stored. *)
Theorem unsynchronized_wallet_hangs (cls : daemon_class) (auth : option string)
    (data : gmap string json) (s : string) (st : daemon) :
  decode_auth cls auth = Returns (Some (LOGIN cls), Some (PASSWORD cls)) →
  truthy (default JNull (data !! "method")) = true →
  data !! "xpub" = Some (JStr s) → s ≠ EmptyString →
  wallets st !! KStr s = None →
  s ∈ disk st ∨ restore_ok cls s = true →
  wallet_ok cls s = true → sync_polls cls s = None →
  ∃ st1,
    handle_request cls (Request auth "application/json" (Some (JObj data))) st
    = (Hangs, st1)
    ∧ same_maps st1 st.
Proof.
  intros Hd Ht Hx Hs Hk Hfile Hw Hsync.
  rewrite (handle_request_parsed cls auth data st Hd Ht). rewrite Hx. simpl.
  destruct (load_wallet cls (JStr s) st) as [r st1] eqn:Hl.
  assert (r = Hangs) as ->.
  { unfold load_wallet in Hl. simpl in Hl. rewrite Hk in Hl.
    rewrite (proj2 (String.eqb_neq s "") Hs) in Hl. simpl in Hl.
    unfold open_wallet in Hl. simpl in Hl. rewrite Hw, Hsync in Hl.
    destruct Hfile as [Hf|Hf].
    - rewrite bool_decide_eq_true_2 in Hl by done. by simplify_eq.
    - rewrite Hf in Hl. case_bool_decide; by simplify_eq. }
  exists st1. split; [done|].
  apply load_wallet_cases in Hl as [(H & _)|(? & ? & ? & ? & _ & _ & _ & H & _)]; done.
Qed.

Lemma unsynchronized_wallet_hangs_witness :
  ∃ st1,
    handle_request stalled (rpc_request "getinfo" (JStr "abc") (JArr [])) initial
    = (Hangs, st1)
    ∧ same_maps st1 initial.
Proof.
  exact (unsynchronized_wallet_hangs stalled good_auth
           {[ "method" := JStr "getinfo"; "xpub" := JStr "abc";
              "params" := JArr []; "id" := JNum 7 ]}
           "abc" initial
           ltac:(vm_compute; reflexivity) ltac:(vm_compute; reflexivity)
           ltac:(vm_compute; reflexivity) ltac:(discriminate)
           ltac:(vm_compute; reflexivity) ltac:(right; vm_compute; reflexivity)
           ltac:(vm_compute; reflexivity) ltac:(vm_compute; reflexivity)).
Defined.

(** ** Requests keep the invariant *)

Lemma call_base_method_wf (cls : daemon_class) (name : string) (pos : list json)
    (kw : gmap string json) (r : outcome json) (st st1 : daemon) :
  call_base_method cls name pos kw st = (r, st1) → wf st → wf st1.
Proof.
  unfold call_base_method. intros H Hwf.
  repeat case_match; simplify_eq; try done;
    eauto using get_updates_wf, subscribe_wf, unsubscribe_wf.
Qed.

(** X10: When the custom handlers keep the registry invariant, so does every
    request, whatever it carries and however it ends. *)
Theorem handle_request_wf (cls : daemon_class) (r : request) (o : outcome response)
    (st st1 : daemon) :
  (∀ name f pos kw x s s1,
     supported_methods cls !! name = Some f → f pos kw s = (x, s1) → wf s → wf s1) →
  wf st → handle_request cls r st = (o, st1) → wf st1.
Proof.
  intros Hcustom Hwf H.
  assert (Hinvoke : ∀ m xpub wallet params x s s1,
            (∀ f, m = CustomMethod f → ∃ name, supported_methods cls !! name = Some f) →
            invoke cls m xpub wallet params s = (x, s1) → wf s → wf s1).
  { intros m xpub wallet params x s s1 Hm Hi Hs. unfold invoke in Hi.
    destruct m as [name|f|name].
    + destruct params; simplify_eq; try done; by eapply call_base_method_wf.
    + destruct (Hm f eq_refl) as [name Hf].
      destruct params; simplify_eq; try done; by eapply Hcustom.
    + repeat case_match; by simplify_eq. }
  assert (Hdispatch : ∀ method id xpub params wallet x s s1,
            dispatch cls method id xpub params wallet s = (x, s1) → wf s → wf s1).
  { intros method id xpub params wallet x s s1 Hdp Hs. unfold dispatch, respond in Hdp.
    destruct (resolve_method cls method) as [[m|]| |] eqn:Hres; simplify_eq; try done.
    destruct (invoke cls m xpub wallet params s) as [y s2] eqn:Hi.
    assert (wf s2).
    { eapply Hinvoke; [|done|done]. intros f ->. unfold resolve_method in Hres.
      destruct (py_hash method) as [[| |name]| |]; simplify_eq/=.
      repeat case_match; simplify_eq; by exists name. }
    unfold reply, respond in Hdp. by destruct y; simplify_eq. }
  unfold handle_request, respond in H.
  destruct (decode_auth cls (authorization r)) as [[u p]| |]; simplify_eq; try done.
  destruct (_ && _); [|by simplify_eq].
  unfold handle_authenticated, respond in H.
  destruct (String.eqb _ _); [|by simplify_eq].
  destruct (body r) as [[| | | | |data]|]; simplify_eq; try done.
  destruct (negb (truthy _)); [by simplify_eq|].
  destruct (load_wallet cls _ st) as [[l|e|] st2] eqn:Hl;
    pose proof (load_wallet_wf _ _ _ _ _ Hl Hwf) as Hwf2.
  - by eapply Hdispatch.
  - destruct (is_builtin_or_custom cls _) as [[|]| |]; simplify_eq; try done.
    by eapply Hdispatch.
  - by simplify_eq.
Qed.

Lemma handle_request_wf_witness :
  wf (handle_request sample
        (rpc_request "subscribe" (JStr "new") (JObj {[ "events" := JArr [JNull] ]}))
        st_two_queued).2.
Proof.
  apply (handle_request_wf sample
           (rpc_request "subscribe" (JStr "new") (JObj {[ "events" := JArr [JNull] ]}))
           (handle_request sample
              (rpc_request "subscribe" (JStr "new") (JObj {[ "events" := JArr [JNull] ]}))
              st_two_queued).1
           st_two_queued).
  - intros name f pos kw x s s1 Hf. vm_compute in Hf. discriminate Hf.
  - apply wf_check_sound. vm_compute. reflexivity.
  - by destruct (handle_request sample _ st_two_queued).
Defined.

(** ** More on the built-in methods *)

Lemma contains_hashable_list (l : list pykey) (i : pykey) :
  py_contains (CJson (JArr (key_json <$> l))) i = Returns (bool_decide (i ∈ l)).
Proof.
  unfold py_contains. f_equal. induction l as [|j l IH].
  - symmetry. apply bool_decide_eq_false_2, not_elem_of_nil.
  - rewrite fmap_cons. cbn [existsb]. rewrite py_hash_key_json, IH.
    destruct (decide (j = i)) as [->|Hne].
    + rewrite (bool_decide_eq_true_2 (i = i)) by done.
      rewrite (bool_decide_eq_true_2 (i ∈ i :: l)) by (by left). done.
    + rewrite (bool_decide_eq_false_2 (j = i)) by done. simpl.
      apply bool_decide_ext. rewrite elem_of_cons. naive_solver.
Qed.

Lemma filter_not_in_hashable_list (l elems : list pykey) :
  ∃ kept, filter_not_in (CJson (JArr (key_json <$> l))) elems = Returns kept
    ∧ ∀ i, i ∈ kept ↔ i ∈ elems ∧ i ∉ l.
Proof.
  induction elems as [|j elems (kept & IH & Hkept)].
  - exists []. split; [done|]. intros i. rewrite elem_of_nil. naive_solver.
  - cbn [filter_not_in]. rewrite contains_hashable_list, IH. simpl.
    case_bool_decide as Hj; (eexists; split; [done|]); intros i;
      rewrite ?elem_of_cons, Hkept; naive_solver.
Qed.

(** X11: [unsubscribe] with a list of tags removes exactly those tags; with an
    empty list it removes nothing (only an omitted or null argument means
    all). *)
Theorem unsubscribe_given_tags (m : gmap string string) (k : pykey) (cfg : wallet_config)
    (l : list pykey) (st : daemon) :
  wallets_config st !! k = Some cfg →
  unsubscribe m (JArr (key_json <$> l)) (key_json k) st
  = (Returns (),
     set_wallets_config
       (<[k := WalletConfig (events cfg ∖ list_to_set l)]> (wallets_config st)) st).
Proof.
  intros Hk. unfold unsubscribe, dict_getitem. rewrite py_hash_key_json. simpl.
  rewrite Hk.
  destruct (filter_not_in_hashable_list l (elements (events cfg))) as (kept & -> & Hkept).
  do 4 f_equal. apply set_eq. intros i.
  rewrite elem_of_list_to_set, Hkept, elem_of_elements, elem_of_difference,
    elem_of_list_to_set. done.
Qed.

Lemma unsubscribe_given_tags_witness :
  (events <$> wallets_config st_abc_block !! KStr "abc") = Some {[ KStr "new_block" ]}
  ∧ (events <$> wallets_config
       (unsubscribe (EVENT_MAPPING sample) (JArr [JStr "new_block"; JStr "other"])
          (JStr "abc") st_abc_block).2 !! KStr "abc") = Some ∅
  ∧ (events <$> wallets_config
       (unsubscribe (EVENT_MAPPING sample) (JArr []) (JStr "abc") st_abc_block).2
       !! KStr "abc") = Some {[ KStr "new_block" ]}.
Proof.
  assert (Hk : wallets_config st_abc_block !! KStr "abc"
               = Some (WalletConfig {[ KStr "new_block" ]}))
    by (vm_compute; reflexivity).
  split; [by rewrite Hk|]. split.
  - pose proof (unsubscribe_given_tags (EVENT_MAPPING sample) (KStr "abc") _
                  [KStr "new_block"; KStr "other"] st_abc_block Hk) as H.
    cbn [fmap list_fmap key_json] in H. rewrite H. vm_compute. reflexivity.
  - pose proof (unsubscribe_given_tags (EVENT_MAPPING sample) (KStr "abc") _
                  [] st_abc_block Hk) as H.
    cbn [fmap list_fmap key_json] in H. rewrite H. vm_compute. reflexivity.
Defined.

Lemma set_wallets_config_same (st : daemon) :
  set_wallets_config (wallets_config st) st = st.
Proof. by destruct st. Qed.

(** X12: Subscribing to tags none of which was subscribed before, and then
    unsubscribing from the same tags, gives back the state one started
    from. *)
Theorem subscribe_unsubscribe_round_trip (m : gmap string string) (k : pykey)
    (cfg : wallet_config) (l : list pykey) (st : daemon) :
  wallets_config st !! k = Some cfg →
  (∀ t, t ∈ l → t ∉ events cfg) →
  ∃ st1, subscribe (JArr (key_json <$> l)) (key_json k) st = (Returns (), st1)
    ∧ unsubscribe m (JArr (key_json <$> l)) (key_json k) st1 = (Returns (), st).
Proof.
  intros Hk Hnew. rewrite (subscribe_known l k cfg st Hk). eexists. split; [done|].
  erewrite unsubscribe_given_tags; [|apply lookup_insert_eq]. f_equal.
  unfold set_wallets_config. simpl. rewrite insert_insert_eq.
  assert (Hset : (events cfg ∪ list_to_set l) ∖ list_to_set l = events cfg).
  { apply set_eq. intros i.
    rewrite elem_of_difference, elem_of_union, elem_of_list_to_set. naive_solver. }
  rewrite Hset. destruct cfg as [ev]. simpl. rewrite insert_id by done. by destruct st.
Qed.

Lemma subscribe_unsubscribe_round_trip_witness :
  ∃ st1,
    subscribe (JArr [JStr "new_transaction"; JNull]) (JStr "abc") st_two_queued
    = (Returns (), st1)
    ∧ unsubscribe (EVENT_MAPPING sample) (JArr [JStr "new_transaction"; JNull])
        (JStr "abc") st1
      = (Returns (), st_two_queued).
Proof.
  assert (Hk : wallets_config st_two_queued !! KStr "abc"
               = Some (WalletConfig {[ KStr "new_block" ]}))
    by (vm_compute; reflexivity).
  exact (subscribe_unsubscribe_round_trip (EVENT_MAPPING sample) (KStr "abc") _
           [KStr "new_transaction"; KNone] st_two_queued Hk
           ltac:(intros t Ht Hin; vm_compute in Hin;
                 apply elem_of_cons in Ht as [->|Ht];
                 [discriminate Hin|];
                 apply elem_of_cons in Ht as [->|Ht];
                 [discriminate Hin|];
                 by apply elem_of_nil in Ht)).
Defined.

Lemma chars_keys (s : string) : JStr <$> chars s = key_json <$> (KStr <$> chars s).
Proof. by rewrite <- list_fmap_compose. Qed.

(** X13: [subscribe] given a string where a list of tags is expected
    subscribes the wallet to every single character of the string, not to
    the string. *)
Theorem subscribe_string_adds_characters (s : string) (k : pykey) (cfg : wallet_config)
    (st : daemon) :
  wallets_config st !! k = Some cfg →
  subscribe (JStr s) (key_json k) st
  = (Returns (),
     set_wallets_config
       (<[k := WalletConfig (events cfg ∪ list_to_set (KStr <$> chars s))]>
          (wallets_config st)) st).
Proof.
  intros Hk. unfold subscribe, dict_getitem. rewrite py_hash_key_json. simpl.
  rewrite Hk. simpl. by rewrite chars_keys, py_hash_fmap_key_json.
Qed.

Lemma subscribe_string_adds_characters_witness :
  (events <$> wallets_config (subscribe (JStr "new") (JStr "abc") st_abc).2 !! KStr "abc")
  = Some {[ KStr "n"; KStr "e"; KStr "w" ]}.
Proof.
  pose proof (subscribe_string_adds_characters "new" (KStr "abc") (WalletConfig ∅) st_abc
                ltac:(vm_compute; reflexivity)) as H.
  cbn [key_json] in H. rewrite H. vm_compute. reflexivity.
Defined.

Lemma set_update_unhashable (l : list pykey) (x : json) (e : exn) (rest : list json)
    (s : gset pykey) :
  py_hash x = Raises e →
  set_update s ((key_json <$> l) ++ x :: rest) = (Raises e, s ∪ list_to_set l).
Proof.
  intros Hx. revert s. induction l as [|j l IH]; intros s; simpl.
  - by rewrite Hx, union_empty_r_L.
  - by rewrite py_hash_key_json, IH, (assoc_L (∪)).
Qed.

(** X14: [subscribe] is not all-or-nothing: when an item of the list is an
    array or a mapping the call raises [TypeError], and the tags before
    that item stay subscribed. *)
Theorem subscribe_keeps_tags_before_failure (l : list pykey) (x : json) (e : exn)
    (rest : list json) (k : pykey) (cfg : wallet_config) (st : daemon) :
  wallets_config st !! k = Some cfg → py_hash x = Raises e →
  subscribe (JArr ((key_json <$> l) ++ x :: rest)) (key_json k) st
  = (Raises e,
     set_wallets_config
       (<[k := WalletConfig (events cfg ∪ list_to_set l)]> (wallets_config st)) st).
Proof.
  intros Hk Hx. unfold subscribe, dict_getitem. rewrite py_hash_key_json. simpl.
  rewrite Hk. simpl. by rewrite (set_update_unhashable l x e rest _ Hx).
Qed.

Lemma subscribe_keeps_tags_before_failure_witness :
  ∃ st1,
    subscribe (JArr [JStr "a"; JArr []; JStr "b"]) (JStr "abc") st_abc
    = (Raises (TypeError "unhashable type: 'list'"), st1)
    ∧ (events <$> wallets_config st1 !! KStr "abc") = Some {[ KStr "a" ]}.
Proof.
  eexists. split.
  - exact (subscribe_keeps_tags_before_failure [KStr "a"] (JArr []) _ [JStr "b"]
             (KStr "abc") (WalletConfig ∅) st_abc
             ltac:(vm_compute; reflexivity) eq_refl).
  - vm_compute. reflexivity.
Defined.

(** X15: [get_updates] and [unsubscribe] are all-or-nothing: when either
    raises, for whatever arguments, the state is the one before the
    call. *)
Theorem failed_call_changes_nothing (m : gmap string string) (ev w : json) (e : exn)
    (st st1 : daemon) :
  get_updates w st = (Raises e, st1) ∨ unsubscribe m ev w st = (Raises e, st1) →
  st1 = st.
Proof.
  unfold get_updates, unsubscribe, dict_getitem. intros [H|H].
  - destruct (py_hash w) as [k| |]; simpl in H; simplify_eq; try done.
    by destruct (wallets_updates st !! k); simplify_eq.
  - destruct (py_hash w) as [k| |]; simpl in H; simplify_eq; try done.
    destruct (wallets_config st !! k) as [cfg|]; simplify_eq; try done.
    by destruct (filter_not_in _ _); simplify_eq.
Qed.

Lemma failed_call_changes_nothing_witness :
  unsubscribe (EVENT_MAPPING sample) (JNum 5) (JStr "abc") st_abc_block
  = (Raises (TypeError "argument is not iterable"), st_abc_block)
  ∧ unsubscribe (EVENT_MAPPING sample) (JNum 5) (JStr "abc") st_abc
    = (Returns (), st_abc).
Proof.
  assert (H : ∃ st1, unsubscribe (EVENT_MAPPING sample) (JNum 5) (JStr "abc") st_abc_block
                     = (Raises (TypeError "argument is not iterable"), st1))
    by (eexists; vm_compute; reflexivity).
  destruct H as [st1 H]. split.
  - rewrite H. f_equal.
    exact (failed_call_changes_nothing (EVENT_MAPPING sample) (JNum 5) (JStr "abc") _
             st_abc_block st1 (or_intror H)).
  - vm_compute. reflexivity.
Defined.

(** ** More on the network callback *)

(** X16: The callback never raises in a state that satisfies the registry
    invariant: a raising hook is swallowed, and no dictionary lookup of
    the delivery loop fails. *)
Theorem callback_never_raises (cls : daemon_class) (event : string)
    (args : callback_args cls) (r : outcome unit) (st st1 : daemon) :
  wf st → _process_events cls event args st = (r, st1) →
  r = Returns () ∨ (r = Hangs ∧ process_events cls (mapped_tag cls event) args = Hangs).
Proof.
  intros Hwf H.
  destruct (process_events cls (mapped_tag cls event) args) as [[[p|] o]| |] eqn:Hhook.
  - destruct (process_events_delivers cls event args p o st Hwf Hhook) as (st2 & Hrun & _).
    rewrite Hrun in H. left. by simplify_eq.
  - unfold _process_events in H. rewrite Hhook in H. left. by simplify_eq.
  - unfold _process_events in H. rewrite Hhook in H. left. by simplify_eq.
  - unfold _process_events in H. rewrite Hhook in H. right. by simplify_eq.
Qed.

Lemma callback_never_raises_witness :
  (_process_events sample "blockchain_updated" (Some block_payload, Some 2) st_two).1
  = Returns ().
Proof.
  destruct (callback_never_raises sample "blockchain_updated"
              (Some block_payload, Some 2) _ st_two _
              ltac:(apply wf_check_sound; vm_compute; reflexivity)
              ltac:(apply surjective_pairing)) as [H|[_ H]].
  - exact H.
  - vm_compute in H. discriminate H.
Defined.

Lemma deliver_all_appends (data : gmap string json) (K : pykey) (origin : option nat)
    (ws : gmap pykey wallet_data) (l : list (pykey * wallet_config))
    (u u1 : gmap pykey (list (gmap string json))) (r : outcome unit) :
  NoDup l.*1 → deliver_all data K origin ws l u = (r, u1) →
  ∀ i, (u1 !! i = u !! i)
       ∨ (i ∈ l.*1 ∧ ∃ q, u !! i = Some q ∧ u1 !! i = Some (q ++ [data])).
Proof.
  revert u. induction l as [|[i0 cfg0] l IH]; intros u Hnd H i; simpl in H.
  { left. by simplify_eq. }
  apply NoDup_cons in Hnd as [Hi0 Hnd].
  destruct (deliver data K origin ws i0 cfg0 u) as [r0 u0] eqn:Hd.
  assert (Hu0 : u0 = u ∨ ∃ q, u !! i0 = Some q ∧ u0 = <[i0 := q ++ [data]]> u).
  { unfold deliver in Hd. repeat case_match; simplify_eq; eauto. }
  assert (Hstep : (u0 !! i = u !! i)
                  ∨ (i = i0 ∧ ∃ q, u !! i = Some q ∧ u0 !! i = Some (q ++ [data]))).
  { destruct Hu0 as [->|(q & Hq & ->)]; [by left|].
    destruct (decide (i = i0)) as [->|Hne].
    - right. split; [done|]. exists q. by rewrite lookup_insert_eq.
    - left. by rewrite lookup_insert_ne. }
  assert (Hrest : (u1 !! i = u0 !! i)
                  ∨ (i ∈ l.*1 ∧ ∃ q, u0 !! i = Some q ∧ u1 !! i = Some (q ++ [data]))).
  { destruct r0; simplify_eq; [by eapply IH|by left..]. }
  destruct Hstep as [Hs|(-> & q & Hq & Hq0)].
  - destruct Hrest as [Hr|(Hin & q & Hq & Hq1)].
    + left. congruence.
    + right. split; [simpl; by right|]. exists q. split; congruence.
  - destruct Hrest as [Hr|(Hin & _)]; [|done].
    right. split; [simpl; by left|]. exists q. split; congruence.
Qed.

(** X17: Whatever the state and however the callback ends, it only ever
    appends: the sessions and the subscriptions are untouched, no queue is
    created or removed, and each queue is the old one followed by at most
    one record. *)
Theorem callback_only_appends (cls : daemon_class) (event : string)
    (args : callback_args cls) (r : outcome unit) (st st1 : daemon) :
  _process_events cls event args st = (r, st1) →
  wallets st1 = wallets st
  ∧ wallets_config st1 = wallets_config st
  ∧ ∀ i, wallets_updates st1 !! i = wallets_updates st !! i
         ∨ ∃ q record, wallets_updates st !! i = Some q
                       ∧ wallets_updates st1 !! i = Some (q ++ [record]).
Proof.
  unfold _process_events. intros H.
  destruct (process_events cls _ args) as [[[p|] o]| |];
    try (simplify_eq; split; [done|]; split; [done|]; intros i; by left).
  destruct (deliver_all _ _ _ _ _ _) as [r0 u1] eqn:Hd. simplify_eq.
  split; [done|]. split; [done|]. intros i. simpl.
  destruct (deliver_all_appends _ _ _ _ _ _ _ _ (NoDup_fst_map_to_list _) Hd i)
    as [Hi|(_ & q & Hq & Hq1)]; [by left|].
  right. by eauto.
Qed.

Lemma callback_only_appends_witness :
  wallets_updates st_two_queued !! KStr "abc" = Some [block_record]
  ∧ wallets_updates
      (_process_events sample "blockchain_updated" (Some block_payload, None)
         st_two_queued).2 !! KStr "abc"
    = Some ([block_record] ++ [block_record]).
Proof.
  assert (Hq : wallets_updates st_two_queued !! KStr "abc" = Some [block_record])
    by (vm_compute; reflexivity).
  split; [exact Hq|].
  destruct (callback_only_appends sample "blockchain_updated" (Some block_payload, None)
              _ st_two_queued _ ltac:(apply surjective_pairing)) as (_ & _ & H).
  destruct (H (KStr "abc")) as [Hsame|(q & record & _ & _)].
  - vm_compute in Hsame. discriminate Hsame.
  - vm_compute. reflexivity.
Defined.

(** X18: The record that is queued is the hook's payload with an [event]
    entry added: the tag, unless the payload has an [event] entry of its
    own, which then stands. *)
Theorem queued_record_fields (cls : daemon_class) (event : string)
    (args : callback_args cls) (data_got : gmap string json) (w : pykey)
    (cfg : wallet_config) (q : list (gmap string json)) (st : daemon) :
  wf st →
  process_events cls (mapped_tag cls event) args = Returns (Some data_got, None) →
  wallets_config st !! w = Some cfg → wallets_updates st !! w = Some q →
  mapped_tag cls event ∈ events cfg →
  ∃ record,
    wallets_updates (_process_events cls event args st).2 !! w = Some (q ++ [record])
    ∧ record !! "event"
      = Some (default (key_json (mapped_tag cls event)) (data_got !! "event"))
    ∧ ∀ key, key ≠ "event" → record !! key = data_got !! key.
Proof.
  intros Hwf Hhook Hc Hq Hin.
  destruct (process_events_delivers cls event args data_got None st Hwf Hhook)
    as (st1 & Hrun & _ & _ & Hall).
  rewrite Hrun. simpl. eexists. split.
  - rewrite (Hall w cfg q Hc Hq). unfold accepts.
    by rewrite bool_decide_eq_true_2.
  - split.
    + rewrite lookup_union, lookup_singleton_eq. by destruct (data_got !! "event").
    + intros key Hkey. rewrite lookup_union, lookup_singleton_ne by done.
      by destruct (data_got !! key).
Qed.

Lemma queued_record_fields_witness :
  ∃ record,
    wallets_updates
      (_process_events sample "blockchain_updated"
         (Some {[ "event" := JStr "mine"; "height" := JNum 5 ]}, None) st_two).2
      !! KStr "abc" = Some ([] ++ [record])
    ∧ record !! "event" = Some (JStr "mine")
    ∧ record !! "height" = Some (JNum 5).
Proof.
  destruct (queued_record_fields sample "blockchain_updated"
              (Some {[ "event" := JStr "mine"; "height" := JNum 5 ]}, None)
              {[ "event" := JStr "mine"; "height" := JNum 5 ]}
              (KStr "abc") (WalletConfig {[ KStr "new_block" ]}) [] st_two
              ltac:(apply wf_check_sound; vm_compute; reflexivity)
              eq_refl
              ltac:(vm_compute; reflexivity) ltac:(vm_compute; reflexivity)
              ltac:(vm_compute; reflexivity))
    as (record & Hq & He & Hk).
  exists record. split; [exact Hq|]. split; [exact He|].
  rewrite (Hk "height" ltac:(discriminate)). vm_compute. reflexivity.
Defined.

Lemma get_updates_known (k : pykey) (st : daemon)
    (q : list (gmap string json)) :
  wallets_updates st !! k = Some q →
  ∃ st1, get_updates (key_json k) st = (Returns q, st1)
    ∧ wallets_updates st1 !! k = Some [].
Proof.
  intros Hq. unfold get_updates, dict_getitem. rewrite py_hash_key_json. simpl.
  rewrite Hq. eexists. split; [done|]. simpl. apply lookup_insert_eq.
Qed.

(** X19: Subscribe, event, poll: after a wallet subscribes to a tag, an event
    with that tag and no origin wallet is what [get_updates] returns next,
    after whatever was queued before. *)
Theorem subscribe_event_poll (cls : daemon_class) (event : string)
    (args : callback_args cls) (data_got : gmap string json) (w : pykey)
    (cfg : wallet_config) (q : list (gmap string json)) (st : daemon) :
  wf st →
  wallets_config st !! w = Some cfg → wallets_updates st !! w = Some q →
  process_events cls (mapped_tag cls event) args = Returns (Some data_got, None) →
  ∃ st1 st2 st3,
    subscribe (JArr [key_json (mapped_tag cls event)]) (key_json w) st = (Returns (), st1)
    ∧ _process_events cls event args st1 = (Returns (), st2)
    ∧ get_updates (key_json w) st2
      = (Returns (q ++ [event_record (mapped_tag cls event) data_got]), st3)
    ∧ wallets_updates st3 !! w = Some [].
Proof.
  intros Hwf Hc Hq Hhook.
  pose proof (subscribe_known [mapped_tag cls event] w cfg st Hc) as Hsub.
  cbn [fmap list_fmap] in Hsub. rewrite Hsub.
  set (st1 := set_wallets_config _ st).
  assert (Hwf1 : wf st1) by (by eapply subscribe_wf).
  destruct (process_events_delivers cls event args data_got None st1 Hwf1 Hhook)
    as (st2 & Hrun & _ & _ & Hall).
  assert (Hq2 : wallets_updates st2 !! w
                = Some (q ++ [event_record (mapped_tag cls event) data_got])).
  { rewrite (Hall w (WalletConfig (events cfg ∪ list_to_set [mapped_tag cls event])) q);
      [|apply lookup_insert_eq|done].
    unfold accepts. rewrite bool_decide_eq_true_2; [done|]. simpl. set_solver. }
  destruct (get_updates_known w st2 _ Hq2) as (st3 & Hget & Hq3).
  exists st1, st2, st3. by repeat split.
Qed.

Lemma subscribe_event_poll_witness :
  ∃ st1 st2 st3,
    subscribe (JArr [JStr "new_transaction"]) (JStr "abc") st_two_queued = (Returns (), st1)
    ∧ _process_events sample "new_transaction" (Some tx_payload, None) st1
      = (Returns (), st2)
    ∧ get_updates (JStr "abc") st2
      = (Returns ([block_record] ++ [event_record (KStr "new_transaction") tx_payload]),
         st3)
    ∧ wallets_updates st3 !! KStr "abc" = Some [].
Proof.
  exact (subscribe_event_poll sample "new_transaction" (Some tx_payload, None) tx_payload
           (KStr "abc") (WalletConfig {[ KStr "new_block" ]}) [block_record] st_two_queued
           ltac:(apply wf_check_sound; vm_compute; reflexivity)
           ltac:(vm_compute; reflexivity) ltac:(vm_compute; reflexivity) eq_refl).
Defined.

(** X20: Events are queued in the order they arrive: two events a wallet is
    subscribed to, neither naming another wallet, end up behind what was
    queued, the first before the second. *)
Theorem events_queued_in_order (cls : daemon_class) (event1 event2 : string)
    (args1 args2 : callback_args cls) (p1 p2 : gmap string json) (w : pykey)
    (cfg : wallet_config) (q : list (gmap string json)) (st : daemon) :
  wf st →
  wallets_config st !! w = Some cfg → wallets_updates st !! w = Some q →
  mapped_tag cls event1 ∈ events cfg → mapped_tag cls event2 ∈ events cfg →
  process_events cls (mapped_tag cls event1) args1 = Returns (Some p1, None) →
  process_events cls (mapped_tag cls event2) args2 = Returns (Some p2, None) →
  ∃ st1 st2,
    _process_events cls event1 args1 st = (Returns (), st1)
    ∧ _process_events cls event2 args2 st1 = (Returns (), st2)
    ∧ wallets_updates st2 !! w
      = Some (q ++ [event_record (mapped_tag cls event1) p1;
                    event_record (mapped_tag cls event2) p2]).
Proof.
  intros Hwf Hc Hq Hin1 Hin2 Hh1 Hh2.
  destruct (process_events_delivers cls event1 args1 p1 None st Hwf Hh1)
    as (st1 & Hrun1 & _ & Hc1 & Hall1).
  assert (Hwf1 : wf st1) by (by eapply process_events_wf).
  destruct (process_events_delivers cls event2 args2 p2 None st1 Hwf1 Hh2)
    as (st2 & Hrun2 & _ & _ & Hall2).
  exists st1, st2. split; [done|]. split; [done|].
  rewrite (Hall2 w cfg (q ++ [event_record (mapped_tag cls event1) p1])).
  - unfold accepts. rewrite bool_decide_eq_true_2 by done. simpl.
    by rewrite <- (assoc_L (++)).
  - by rewrite Hc1.
  - rewrite (Hall1 w cfg q Hc Hq). unfold accepts.
    by rewrite bool_decide_eq_true_2.
Qed.

Lemma events_queued_in_order_witness :
  ∃ st1 st2,
    _process_events sample "new_transaction" (Some tx_payload, None) st_two_both
    = (Returns (), st1)
    ∧ _process_events sample "blockchain_updated" (Some block_payload, None) st1
      = (Returns (), st2)
    ∧ wallets_updates st2 !! KStr "abc"
      = Some ([] ++ [event_record (KStr "new_transaction") tx_payload;
                     event_record (KStr "new_block") block_payload]).
Proof.
  exact (events_queued_in_order sample "new_transaction" "blockchain_updated"
           (Some tx_payload, None) (Some block_payload, None) tx_payload block_payload
           (KStr "abc") (WalletConfig {[ KStr "new_block"; KStr "new_transaction" ]}) []
           st_two_both
           ltac:(apply wf_check_sound; vm_compute; reflexivity)
           ltac:(vm_compute; reflexivity) ltac:(vm_compute; reflexivity)
           ltac:(vm_compute; reflexivity) ltac:(vm_compute; reflexivity)
           eq_refl eq_refl).
Defined.

Lemma load_wallet_first (cls : daemon_class) (s : string) (l : loaded)
    (st st1 : daemon) :
  wallets st !! KStr s = None → s ≠ EmptyString →
  load_wallet cls (JStr s) st = (Returns l, st1) →
  ∃ w, ld_wallet l = Some w
    ∧ wallets st1 !! KStr s = Some (WalletData w (ld_cmd l) (ld_config l))
    ∧ wallets_config st1 !! KStr s = Some (WalletConfig ∅)
    ∧ wallets_updates st1 !! KStr s = Some [].
Proof.
  intros Hk Hs Hl. unfold load_wallet in Hl. simpl in Hl. rewrite Hk in Hl.
  rewrite (proj2 (String.eqb_neq s "") Hs) in Hl. simpl in Hl.
  destruct (open_wallet cls s _) as [[w| |] st2]; simplify_eq.
  destruct (sync_polls cls s); simplify_eq.
  exists w. simpl. by rewrite !lookup_insert_eq.
Qed.

(** X21: A wallet gets no event before it subscribes: after its first load
    it has a session with an empty queue, and any event at all, whatever
    the hook makes of it, leaves that queue empty. *)
Theorem new_session_receives_nothing (cls : daemon_class) (s : string) (l : loaded)
    (event : string) (args : callback_args cls) (st st1 : daemon) :
  wf st → wallets st !! KStr s = None → s ≠ EmptyString →
  load_wallet cls (JStr s) st = (Returns l, st1) →
  is_Some (wallets st1 !! KStr s)
  ∧ wallets_updates st1 !! KStr s = Some []
  ∧ wallets_updates (_process_events cls event args st1).2 !! KStr s = Some [].
Proof.
  intros Hwf Hk Hs Hl.
  pose proof (load_wallet_wf _ _ _ _ _ Hl Hwf) as Hwf1.
  destruct (load_wallet_first cls s l st st1 Hk Hs Hl) as (w & _ & Hw & Hc & Hq).
  split; [by eexists|]. split; [done|].
  destruct (process_events cls (mapped_tag cls event) args) as [[[p|] o]| |] eqn:Hhook.
  - destruct (process_events_delivers cls event args p o st1 Hwf1 Hhook)
      as (st2 & -> & _ & _ & Hall).
    simpl. rewrite (Hall _ _ _ Hc Hq). unfold accepts.
    by rewrite bool_decide_eq_false_2 by apply not_elem_of_empty.
  - unfold _process_events. by rewrite Hhook.
  - unfold _process_events. by rewrite Hhook.
  - unfold _process_events. by rewrite Hhook.
Qed.

Lemma new_session_receives_nothing_witness :
  is_Some (wallets (load_wallet sample (JStr "new") st_two).2 !! KStr "new")
  ∧ wallets_updates (load_wallet sample (JStr "new") st_two).2 !! KStr "new" = Some []
  ∧ wallets_updates
      (_process_events sample "blockchain_updated" (Some block_payload, None)
         (load_wallet sample (JStr "new") st_two).2).2 !! KStr "new" = Some [].
Proof.
  exact (new_session_receives_nothing sample "new" (Loaded (Some 8) 7 6)
           "blockchain_updated" (Some block_payload, None) st_two
           (load_wallet sample (JStr "new") st_two).2
           ltac:(apply wf_check_sound; vm_compute; reflexivity)
           ltac:(vm_compute; reflexivity) ltac:(discriminate)
           ltac:(vm_compute; reflexivity)).
Defined.

(** ** More on authentication *)

Lemma split_colon_nonempty (s : string) : ∃ piece pieces, split_colon s = piece :: pieces.
Proof.
  induction s as [|c r (p & ps & IH)]; simpl; [by eauto|].
  rewrite IH. destruct (Ascii.eqb c ":"); by eauto.
Qed.

(** Splitting at colons and joining with colons gives the string back,
    and no piece has a colon. *)
Lemma split_colon_join (s : string) :
  join_colon (split_colon s) = s
  ∧ Forall (λ piece, count_colons piece = 0) (split_colon s)
  ∧ length (split_colon s) = S (count_colons s).
Proof.
  induction s as [|c r (IHj & IHf & IHl)]; simpl; [by repeat constructor|].
  destruct (split_colon_nonempty r) as (p & ps & Hr). rewrite Hr in *.
  destruct (Ascii.eqb c ":") eqn:Hc.
  - apply Ascii.eqb_eq in Hc as ->. split; [|split].
    + change (join_colon (EmptyString :: p :: ps))
        with (String ":" (join_colon (p :: ps))). by rewrite IHj.
    + by constructor.
    + simpl in *. by rewrite IHl.
  - apply Forall_cons in IHf as [Hp Hps]. split; [|split].
    + destruct ps as [|p' ps]; simpl in *; by rewrite <- IHj.
    + constructor; [|done]. simpl. by rewrite Hc.
    + simpl in *. by rewrite IHl.
Qed.

Lemma split_colon_two (s u p : string) :
  split_colon s = [u; p]
  ↔ s = u +:+ String ":" p ∧ count_colons u = 0 ∧ count_colons p = 0.
Proof.
  split.
  - intros H. destruct (split_colon_join s) as (Hj & Hf & _). rewrite H in *.
    apply Forall_cons in Hf as [Hu Hf]. apply Forall_cons in Hf as [Hp _].
    by rewrite <- Hj.
  - intros (-> & Hu & Hp). induction u as [|c u IH]; simpl in *.
    + destruct (split_colon_join p) as (Hj & Hf & Hl).
      destruct (split_colon p) as [|p0 [|p1 ps]] eqn:Hsp; simpl in *; try lia.
      by rewrite Hj.
    + destruct (Ascii.eqb c ":"); [done|]. by rewrite IH.
Qed.

(** X22: What [decode_auth] makes of a header: with [text] the decoded
    credentials, it returns a user and a password exactly when [text] is
    the user, one colon, the password, neither containing a colon; a text
    with no colon, or with more than one (a password with a colon in it),
    makes it raise [ValueError]. *)
Theorem decode_auth_one_colon (cls : daemon_class) (h text : string) :
  h ≠ EmptyString → b64decode cls (remove_all "Basic " 0 h) = Returns text →
  (∀ u p, decode_auth cls (Some h) = Returns (Some u, Some p)
          ↔ text = u +:+ String ":" p ∧ count_colons u = 0 ∧ count_colons p = 0)
  ∧ (count_colons text ≠ 1 → ∃ m, decode_auth cls (Some h) = Raises (ValueError m)).
Proof.
  intros Hh Hb.
  assert (Hd : decode_auth cls (Some h)
               = match split_colon text with
                 | [user; password] => Returns (Some user, Some password)
                 | [] | [_] =>
                     Raises (ValueError "not enough values to unpack (expected 2, got 1)")
                 | _ => Raises (ValueError "too many values to unpack (expected 2)")
                 end).
  { unfold decode_auth. destruct h; [done|]. by rewrite Hb. }
  rewrite Hd. split.
  - intros u p. rewrite <- split_colon_two.
    destruct (split_colon text) as [|a [|b [|c l]]]; naive_solver.
  - intros Hn. destruct (split_colon_join text) as (_ & _ & Hl).
    destruct (split_colon text) as [|a [|b [|c l]]]; simpl in Hl; eauto. lia.
Qed.

Lemma decode_auth_one_colon_witness :
  decode_auth sample (Some "Basic YTpiOmM=") 
  = Raises (ValueError "too many values to unpack (expected 2)")
  ∧ decode_auth sample good_auth = Returns (Some "electrum", Some "electrumz").
Proof.
  split.
  - destruct (decode_auth_one_colon sample "Basic YTpiOmM=" "a:b:c"
                ltac:(discriminate) ltac:(vm_compute; reflexivity)) as [_ H].
    destruct (H ltac:(vm_compute; lia)) as [m Hm]. rewrite Hm.
    vm_compute in Hm. by injection Hm as <-.
  - destruct (decode_auth_one_colon sample "Basic ZWxlY3RydW06ZWxlY3RydW16"
                "electrum:electrumz"
                ltac:(discriminate) ltac:(vm_compute; reflexivity)) as [H _].
    apply (H "electrum" "electrumz"). by vm_compute.
Defined.

(** ** Library commands *)

(** X23: A library command is called with the positional [params] and, when
    its metadata asks for a wallet, with [wallet_path] bound to the path
    of the storage of the loaded wallet, the wallet file
    [os.path.join(wallet_dir, xpub)] as the library names it, or to [None]
    when the loader returned no wallet.  An attribute of the command
    runner that is no registered command is not called; the request is
    answered with the [KeyError].  In a state that satisfies the registry
    invariant a loaded wallet always comes with a string [xpub]. *)
Theorem library_command_call (cls : daemon_class) (auth : option string)
    (data : gmap string json) (name : string) (pos : list json) (l : loaded)
    (st st1 : daemon) :
  decode_auth cls auth = Returns (Some (LOGIN cls), Some (PASSWORD cls)) →
  data !! "method" = Some (JStr name) → name ≠ EmptyString →
  name ∉ base_methods → supported_methods cls !! name = None →
  name ∈ command_attrs cls →
  data !! "params" = Some (JArr pos) →
  load_wallet cls (default JNull (data !! "xpub")) st = (Returns l, st1) →
  (∀ path,
     match ld_wallet l with
     | Some _ =>
         ∃ s, data !! "xpub" = Some (JStr s)
           ∧ path = JStr (storage_path cls (path_join (wallet_dir cls) s))
     | None => path = JNull
     end →
     handle_request cls (Request auth "application/json" (Some (JObj data))) st
     = (answer cls (default JNull (data !! "id"))
          (match known_commands cls !! name with
           | Some true => run_command cls name pos {[ "wallet_path" := path ]}
           | Some false => run_command cls name pos ∅
           | None => Raises (KeyError (KStr name))
           end), st1))
  ∧ (wf st → is_Some (ld_wallet l) → ∃ s, data !! "xpub" = Some (JStr s)).
Proof.
  intros Hd Hm Hn Hb Hs Hc Hp Hl. split.
  - intros path Hpath.
    rewrite (handle_request_parsed cls auth data st Hd);
      [|rewrite Hm; by apply truthy_name].
    rewrite Hl, Hm, Hp. unfold dispatch, resolve_method. simpl.
    rewrite bool_decide_eq_false_2 by done. rewrite Hs.
    rewrite bool_decide_eq_true_2 by done. unfold invoke.
    assert (Hw : wallet_storage_path cls (ld_wallet l) (default JNull (data !! "xpub"))
                 = path).
    { destruct (ld_wallet l) as [w|]; [|done].
      destruct Hpath as (s & -> & ->). done. }
    rewrite Hw.
    destruct (known_commands cls !! name) as [[|]|]; try done;
      by destruct (run_command cls name pos _).
  - intros Hwf [w Hw].
    assert (Hx : ∃ s, default JNull (data !! "xpub") = JStr s).
    { apply load_wallet_cases in Hl as [(_ & _ & H)|(s & _ & _ & _ & Hx & _)];
        [|by exists s].
      destruct (H l w eq_refl Hw) as (k & d & Hh & Hk & _).
      destruct (wf_keys st Hwf k d Hk) as (s & -> & _). exists s.
      by destruct (default JNull (data !! "xpub")); simplify_eq/=. }
    destruct Hx as [s Hx]. exists s.
    by destruct (data !! "xpub"); simplify_eq/=.
Qed.

Lemma library_command_call_witness :
  handle_request sample (rpc_request "getbalance" (JStr "abc") (JArr [JNum 1]))
    st_two_queued
  = (answer sample (JNum 7)
       (run_command sample "getbalance" [JNum 1]
          {[ "wallet_path" := JStr "/data/wallets/abc" ]}),
     st_two_queued)
  ∧ handle_request sample (rpc_request "getbalance" JNull (JArr [JNum 1])) st_two_queued
    = (answer sample (JNum 7)
         (run_command sample "getbalance" [JNum 1] {[ "wallet_path" := JNull ]}),
       set_fresh 8 st_two_queued).
Proof.
  split.
  - refine (proj1 (library_command_call sample good_auth
             {[ "method" := JStr "getbalance"; "xpub" := JStr "abc";
                "params" := JArr [JNum 1]; "id" := JNum 7 ]}
             "getbalance" [JNum 1] (Loaded (Some 2) 1 0) st_two_queued st_two_queued
             ltac:(vm_compute; reflexivity) ltac:(vm_compute; reflexivity)
             ltac:(discriminate)
             ltac:(intros H; vm_compute in H; discriminate H)
             ltac:(vm_compute; reflexivity) ltac:(vm_compute; reflexivity)
             ltac:(vm_compute; reflexivity) ltac:(vm_compute; reflexivity))
           (JStr "/data/wallets/abc") _).
    hnf. exists "abc". split; vm_compute; reflexivity.
  - exact (proj1 (library_command_call sample good_auth
             {[ "method" := JStr "getbalance"; "xpub" := JNull;
                "params" := JArr [JNum 1]; "id" := JNum 7 ]}
             "getbalance" [JNum 1] (Loaded None 7 6) st_two_queued
             (set_fresh 8 st_two_queued)
             ltac:(vm_compute; reflexivity) ltac:(vm_compute; reflexivity)
             ltac:(discriminate)
             ltac:(intros H; vm_compute in H; discriminate H)
             ltac:(vm_compute; reflexivity) ltac:(vm_compute; reflexivity)
             ltac:(vm_compute; reflexivity) ltac:(vm_compute; reflexivity))
           JNull eq_refl).
Defined.

(** ** Interleaved loads, again *)

Lemma run_schedule_wf_witness :
  wf (run_schedule sample [0; 1; 0; 1] two_loads initial).2.
Proof.
  apply (run_schedule_wf sample [0; 1; 0; 1] [JStr "abc"; JStr "abc"]
           (run_schedule sample [0; 1; 0; 1] two_loads initial).1 initial).
  - apply wf_check_sound. vm_compute. reflexivity.
  - apply surjective_pairing.
Defined.

(** ** When no exception leaves the handler *)

Lemma reply_never_raises (cls : daemon_class) (id : json) (x : outcome json * daemon)
    (e : exn) (st1 : daemon) :
  reply cls id x ≠ (Raises e, st1).
Proof. unfold reply, respond. by destruct x as [[v|e0|] st0]. Qed.

Lemma dispatch_named_never_raises (cls : daemon_class) (name : string)
    (id xpub params : json) (wallet : option nat) (e : exn) (st st1 : daemon) :
  dispatch cls (JStr name) id xpub params wallet st ≠ (Raises e, st1).
Proof.
  unfold dispatch, resolve_method, respond. simpl.
  repeat case_match; simplify_eq; try done; apply reply_never_raises.
Qed.

(** X25: When the [Authorization] header decodes, the body of a JSON request
    is a JSON object and its method, if it has one, is a string, no
    exception leaves the handler: it answers, or it waits for ever. *)
Theorem well_formed_request_never_escapes (cls : daemon_class) (r : request)
    (u p : option string) (e : exn) (st st1 : daemon) :
  decode_auth cls (authorization r) = Returns (u, p) →
  (content_type r = "application/json" →
   ∃ data, body r = Some (JObj data)
     ∧ ∀ m, data !! "method" = Some m → truthy m = true → ∃ name, m = JStr name) →
  handle_request cls r st ≠ (Raises e, st1).
Proof.
  intros Hd Hbody. unfold handle_request, respond. rewrite Hd.
  destruct (_ && _); [|done].
  unfold handle_authenticated, respond.
  destruct (String.eqb (content_type r) "application/json") eqn:Hct; [|done].
  apply String.eqb_eq in Hct. destruct (Hbody Hct) as (data & -> & Hm).
  destruct (data !! "method") as [m|] eqn:Hmethod; simpl; [|done].
  destruct (truthy m) eqn:Ht; simpl; [|done].
  destruct (Hm m eq_refl Ht) as [name ->].
  destruct (load_wallet cls _ st) as [[l|e0|] st2]; [| |done].
  - apply dispatch_named_never_raises.
  - unfold is_builtin_or_custom. simpl.
    destruct (_ || _); [apply dispatch_named_never_raises|done].
Qed.

Lemma well_formed_request_never_escapes_witness :
  ¬ ∃ e st1,
      handle_request sample (rpc_request "subscribe" (JStr "invalid") (JNum 3))
        st_two_queued
      = (Raises e, st1).
Proof.
  intros (e & st1 & H). revert H.
  apply (well_formed_request_never_escapes sample
           (rpc_request "subscribe" (JStr "invalid") (JNum 3))
           (Some "electrum") (Some "electrumz") e st_two_queued st1).
  - vm_compute. reflexivity.
  - intros _. eexists. split; [reflexivity|].
    intros m Hm _. vm_compute in Hm. injection Hm as <-. by eexists.
Defined.

(** ** Identifiers that are not strings *)

(** X26: A wallet identifier that is not a string never gets a session: null,
    false and zero give the session-less context of an absent identifier,
    and everything else makes the loader raise [TypeError]. *)
Theorem non_string_identifier (cls : daemon_class) (xpub : json) (st : daemon) :
  wf st → (∀ s, xpub ≠ JStr s) →
  ∃ r st1, load_wallet cls xpub st = (r, st1)
    ∧ same_maps st1 st
    ∧ ((truthy xpub = false ∧ ∃ c cf, r = Returns (Loaded None c cf))
       ∨ ∃ m, r = Raises (TypeError m)).
Proof.
  intros Hwf Hns. unfold load_wallet.
  destruct (py_hash xpub) as [k| |] eqn:Hh.
  - assert (Hk : wallets st !! k = None).
    { destruct (wallets st !! k) as [d|] eqn:Hk; [|done].
      destruct (wf_keys st Hwf k d Hk) as (s & -> & _).
      destruct xpub; simplify_eq/=. by destruct (Hns s). }
    rewrite Hk. destruct (truthy xpub) eqn:Ht; simpl.
    + destruct xpub; simplify_eq/=; try (by destruct (Hns s));
        (eexists; eexists; split; [done|]; split; [done|]; right; by eauto).
    + eexists. eexists. split; [done|]. split; [done|]. left. by eauto.
  - destruct xpub; simplify_eq/=;
      (eexists; eexists; split; [done|]; split; [done|]; right; by eauto).
  - by destruct xpub.
Qed.

Lemma non_string_identifier_witness :
  load_wallet sample (JNum 7) st_two
  = (Raises (TypeError "expected str, bytes or os.PathLike object"), set_fresh 8 st_two)
  ∧ load_wallet sample (JNum 0) st_two = (Returns (Loaded None 7 6), set_fresh 8 st_two).
Proof.
  assert (Hwf : wf st_two) by (apply wf_check_sound; vm_compute; reflexivity).
  split.
  - destruct (non_string_identifier sample (JNum 7) st_two Hwf ltac:(discriminate))
      as (r & st1 & H & _ & [[Ht _]|[m Hm]]); [discriminate Ht|].
    vm_compute. reflexivity.
  - destruct (non_string_identifier sample (JNum 0) st_two Hwf ltac:(discriminate))
      as (r & st1 & H & _ & _).
    vm_compute. reflexivity.
Defined.

(** ** Unsubscribing from everything, as the code does it *)

Lemma unsubscribe_all_removes_raw_kinds_witness :
  (events <$> wallets_config st_two_both !! KStr "abc")
  = Some {[ KStr "new_block"; KStr "new_transaction" ]}
  ∧ ∃ st1 cfg1,
      unsubscribe (EVENT_MAPPING sample) JNull (JStr "abc") st_two_both = (Returns (), st1)
      ∧ wallets_config st1 !! KStr "abc" = Some cfg1
      ∧ KStr "new_block" ∈ events cfg1
      ∧ KStr "new_transaction" ∉ events cfg1.
Proof.
  assert (Hk : wallets_config st_two_both !! KStr "abc"
               = Some (WalletConfig {[ KStr "new_block"; KStr "new_transaction" ]}))
    by (vm_compute; reflexivity).
  split; [by rewrite Hk|].
  destruct (unsubscribe_all_removes_raw_kinds (EVENT_MAPPING sample) (KStr "abc") _
              st_two_both Hk) as (st1 & Hu & cfg1 & Hc & Hiff).
  exists st1, cfg1. split; [exact Hu|]. split; [exact Hc|]. split.
  - apply Hiff. split; [vm_compute; reflexivity|].
    intros s [= <-]. vm_compute. reflexivity.
  - intros [_ H]%Hiff. specialize (H "new_transaction" eq_refl).
    vm_compute in H. discriminate H.
Defined.
